(** * opt-gsoc-nr-channel-models-error.cc: scenario orchestration of the NR
    channel-model experiment

    The program is one [main] that drives the ns-3 / 5G-LENA libraries.  The
    embedding follows it statement by statement: [main]'s local variables
    are a record, the objects it configures are attribute stores, and every
    library call that creates, installs, prints or runs something is
    appended to a journal.  [NS_FATAL_ERROR] and [exit] end the run in an
    [Abort] that keeps the world reached so far.

    C++ [double]s are modelled as rationals: every [double] the program
    computes itself is a small integer (or 1.5) times an index below 2^32,
    which binary64 represents exactly.  Whole-valued literals such as
    [50.0] are written [50], and [30.5e9] is written [305e8]. *)

From Stdlib Require Import ZArith NArith QArith String DecimalString List Lia Bool.
From stdpp Require Import gmap strings list fin_maps.

Local Open Scope string_scope.

(** ** Values handed to the libraries *)

(** [ns3::Vector] / [ns3::Vector3D]. *)
Record Vector := mkVector { x : Q; y : Q; z : Q }.

(** [NrAmc::AmcModel]. *)
Inductive AmcModel := ErrorModel | ShannonModel.

(** The [TypeId]s the program names, either through a class
    ([IsotropicAntennaModel::GetTypeId ()]) or through a string looked up
    at run time ([TypeId::LookupByName (errorModelType)]). *)
Inductive TypeId :=
| IsotropicAntennaModel
| ParabolicAntennaModel
| FriisPropagationLossModel
| DirectPathBeamforming
| TrafficGeneratorNgmnGaming
| LookupByName (name : string).

(** [ns3::Time]; the program only builds times from whole milliseconds. *)
Definition Time := Z.
Definition MilliSeconds (ms : Z) : Time := ms.
Definition Seconds (s : Z) : Time := (1000 * s)%Z.

(** [ns3::AttributeValue] subclasses used by the program. *)
Inductive AttributeValue :=
| UintegerValue (n : Z)
| BooleanValue (b : bool)
| DoubleValue (d : Q)
| TimeValue (t : Time)
| TypeIdValue (tid : TypeId)
| EnumValue (m : AmcModel)
| PointerValue (object : TypeId)
| DataRateValue (rate : string).

(** The attribute stores written by [main]: the global [Config::SetDefault]
    table and the object factories behind [NrHelper], [NrChannelHelper],
    [IdealBeamformingHelper] and [PointToPointHelper].  An attribute is
    addressed by its store and its name. *)
Inductive Store :=
| ConfigDefault
| UeAntenna | GnbAntenna
| GnbPhy | UePhy
| Scheduler
| GnbDlAmc | GnbUlAmc
| Pathloss | ChannelConditionModel
| IdealBeamforming
| P2pDevice | P2pChannel.

#[global] Instance Store_eq_dec : EqDecision Store.
Proof. solve_decision. Defined.

Definition Store_index (s : Store) : nat :=
  match s with
  | ConfigDefault => 0 | UeAntenna => 1 | GnbAntenna => 2 | GnbPhy => 3
  | UePhy => 4 | Scheduler => 5 | GnbDlAmc => 6 | GnbUlAmc => 7
  | Pathloss => 8 | ChannelConditionModel => 9 | IdealBeamforming => 10
  | P2pDevice => 11 | P2pChannel => 12
  end.

Definition Store_of_index (n : nat) : Store :=
  match n with
  | 0 => ConfigDefault | 1 => UeAntenna | 2 => GnbAntenna | 3 => GnbPhy
  | 4 => UePhy | 5 => Scheduler | 6 => GnbDlAmc | 7 => GnbUlAmc
  | 8 => Pathloss | 9 => ChannelConditionModel | 10 => IdealBeamforming
  | 11 => P2pDevice | _ => P2pChannel
  end.

#[global] Instance Store_countable : Countable Store.
Proof. apply (inj_countable' Store_index Store_of_index). now intros []. Defined.

(** Factories whose type is chosen by the program. *)
Inductive Factory :=
| UeAntennaType | GnbAntennaType
| PropagationLoss
| UlErrorModel | DlErrorModel.

#[global] Instance Factory_eq_dec : EqDecision Factory.
Proof. solve_decision. Defined.

Definition Factory_index (f : Factory) : nat :=
  match f with
  | UeAntennaType => 0 | GnbAntennaType => 1 | PropagationLoss => 2
  | UlErrorModel => 3 | DlErrorModel => 4
  end.

Definition Factory_of_index (n : nat) : Factory :=
  match n with
  | 0 => UeAntennaType | 1 => GnbAntennaType | 2 => PropagationLoss
  | 3 => UlErrorModel | _ => DlErrorModel
  end.

#[global] Instance Factory_countable : Countable Factory.
Proof. apply (inj_countable' Factory_index Factory_of_index). now intros []. Defined.

(** [ConstantVelocityMobilityModel] of one terminal. *)
Record MobilityModel := mkMobility { position : Vector; velocity : Vector }.

(** [HexagonalGridScenarioHelper] settings. *)
Record HexGrid := mkHexGrid {
  m_utHeight : Q;
  m_bsHeight : Q;
  m_sectorization : Z;
  m_isd : Q;
  m_utNumber : N;
  m_bsNumber : N
}.

Inductive DeviceKind := GnbDevices | UeDevices.

Inductive PrintfArg :=
| ArgString (s : string)
| ArgUint (n : N)
| ArgSize (n : nat)
| ArgDouble (d : Q).

(** Library calls that create, install, print or run something, in the
    order [main] makes them. *)
Inductive Call :=
| Printf (format : string) (args : list PrintfArg)
| LogComponentEnable (component : string)
| NsLogInfo (message : string) (args : list PrintfArg)
| CreateScenarioWithMobility (speed : Vector) (percentage : Q)
| SetPosition (ueIndex : nat) (p : Vector)
| SetVelocity (ueIndex : nat) (v : Vector)
| CreateEpcHelper
| CreateNrHelper
| CreateChannelHelper
| SetEpcHelper
| CreateOperationBandContiguousCc (frequency bandwidth : Q) (numCc : Z)
| CreateIdealBeamformingHelper
| SetBeamformingHelper
| ConfigureFactories (scenario condition model : string)
| AssignChannelsToBands
| GetAllBwps
| InstallGnbDevice (nodes : nat)
| InstallUeDevice (nodes : nat)
| AssignStreams (kind : DeviceKind) (stream : Z)
| GetPgwNode
| CreateRemoteHost
| InternetInstallRemoteHost
| P2pInstall
| Ipv4SetBase (network mask : string)
| Ipv4Assign
| AddNetworkRouteTo (network mask : string) (interface : Z)
| InternetInstallUes
| AssignUeIpv4Address
| TrafficGeneratorInstall (ueIndex : nat) (port : Z) (generator : TypeId)
| AttachToClosestGnb
| ServerAppsStart (t : Time)
| ClientAppsStart (t : Time)
| ServerAppsStop (t : Time)
| ClientAppsStop (t : Time)
| EnableDlDataPhyTraces
| EnableDlMacSchedTraces
| EnableGnbMacCtrlMsgsTraces
| EnablePathlossTraces
| SimulatorStop (t : Time)
| SetSeed (seed : N)
| SetRun (run : N)
| SimulatorRun
| ReportRuntime
| SimulatorDestroy.

(** ** The world [main] acts on *)

Record World := mkWorld {
  attributes : gmap (Store * string) AttributeValue;
  typeIds : gmap Factory TypeId;
  hexGrid : HexGrid;
  ueNodes : list MobilityModel;
  gNbNodes : nat;
  beamformingHelper : bool;
  gNbNetDev : option nat;
  ueNetDev : option nat;
  randomStream : Z;
  journal : list Call
}.

Definition initialWorld : World :=
  {| attributes := ∅;
     typeIds := ∅;
     hexGrid := mkHexGrid 0 0 0 0 0 0;
     ueNodes := [];
     gNbNodes := 0%nat;
     beamformingHelper := false;
     gNbNetDev := None;
     ueNetDev := None;
     randomStream := 1;
     journal := [] |}.

(** How a run ends before [return 0]. *)
Inductive Halt :=
| NsFatalError (message : string)
| TypeIdNotFound (name : string)
| Exit (code : Z).

Inductive Outcome (A : Type) :=
| Ret (a : A) (w : World)
| Abort (h : Halt) (w : World).
Arguments Ret {A} a w.
Arguments Abort {A} h w.

Definition Sim (A : Type) := World -> Outcome A.

Definition ret {A} (a : A) : Sim A := fun w => Ret a w.

Definition bind {A B} (m : Sim A) (k : A -> Sim B) : Sim B :=
  fun w => match m w with
           | Ret a w' => k a w'
           | Abort h w' => Abort h w'
           end.

Declare Scope sim_scope.
Delimit Scope sim_scope with sim.
Bind Scope sim_scope with Sim.
Notation "m ;; k" := (bind m (fun _ => k))
  (at level 100, k at level 200, right associativity) : sim_scope.

Definition gets {A} (f : World -> A) : Sim A := fun w => Ret (f w) w.
Definition modify (f : World -> World) : Sim unit := fun w => Ret tt (f w).
Definition abort {A} (h : Halt) : Sim A := fun w => Abort h w.
Definition NS_FATAL_ERROR {A} (message : string) : Sim A :=
  abort (NsFatalError message).

Definition world_of {A} (o : Outcome A) : World :=
  match o with Ret _ w => w | Abort _ w => w end.

Definition aborted {A} (o : Outcome A) : bool :=
  match o with Ret _ _ => false | Abort _ _ => true end.

(** [for (size_t i = 0; i < n; i++) body (i)] is [forEach (seq 0 n) body]. *)
Fixpoint forEach (l : list nat) (body : nat -> Sim unit) : Sim unit :=
  match l with
  | [] => ret tt
  | i :: l' => bind (body i) (fun _ => forEach l' body)
  end.

(** *** Field updates *)

Definition with_attributes (f : gmap (Store * string) AttributeValue) (w : World) : World :=
  mkWorld f (typeIds w) (hexGrid w) (ueNodes w) (gNbNodes w)
          (beamformingHelper w) (gNbNetDev w) (ueNetDev w) (randomStream w) (journal w).

Definition with_typeIds (f : gmap Factory TypeId) (w : World) : World :=
  mkWorld (attributes w) f (hexGrid w) (ueNodes w) (gNbNodes w)
          (beamformingHelper w) (gNbNetDev w) (ueNetDev w) (randomStream w) (journal w).

Definition with_hexGrid (g : HexGrid) (w : World) : World :=
  mkWorld (attributes w) (typeIds w) g (ueNodes w) (gNbNodes w)
          (beamformingHelper w) (gNbNetDev w) (ueNetDev w) (randomStream w) (journal w).

Definition with_nodes (ues : list MobilityModel) (gnbs : nat) (w : World) : World :=
  mkWorld (attributes w) (typeIds w) (hexGrid w) ues gnbs
          (beamformingHelper w) (gNbNetDev w) (ueNetDev w) (randomStream w) (journal w).

Definition with_beamformingHelper (b : bool) (w : World) : World :=
  mkWorld (attributes w) (typeIds w) (hexGrid w) (ueNodes w) (gNbNodes w)
          b (gNbNetDev w) (ueNetDev w) (randomStream w) (journal w).

Definition with_gNbNetDev (d : option nat) (w : World) : World :=
  mkWorld (attributes w) (typeIds w) (hexGrid w) (ueNodes w) (gNbNodes w)
          (beamformingHelper w) d (ueNetDev w) (randomStream w) (journal w).

Definition with_ueNetDev (d : option nat) (w : World) : World :=
  mkWorld (attributes w) (typeIds w) (hexGrid w) (ueNodes w) (gNbNodes w)
          (beamformingHelper w) (gNbNetDev w) d (randomStream w) (journal w).

Definition with_randomStream (s : Z) (w : World) : World :=
  mkWorld (attributes w) (typeIds w) (hexGrid w) (ueNodes w) (gNbNodes w)
          (beamformingHelper w) (gNbNetDev w) (ueNetDev w) s (journal w).

Definition with_journal (j : list Call) (w : World) : World :=
  mkWorld (attributes w) (typeIds w) (hexGrid w) (ueNodes w) (gNbNodes w)
          (beamformingHelper w) (gNbNetDev w) (ueNetDev w) (randomStream w) j.

(** *** Primitive operations *)

(** A library call recorded in the journal. *)
Definition call (c : Call) : Sim unit :=
  modify (fun w => with_journal (journal w ++ [c])%list w).

(** [ObjectFactory::Set] and [Config::SetDefault]: the last value written
    under a name is the one kept. *)
Definition setAttribute (s : Store) (name : string) (v : AttributeValue) : Sim unit :=
  modify (fun w => with_attributes (<[(s, name) := v]> (attributes w)) w).

Definition setTypeId (f : Factory) (t : TypeId) : Sim unit :=
  modify (fun w => with_typeIds (<[f := t]> (typeIds w)) w).

Definition attribute (w : World) (s : Store) (name : string) : option AttributeValue :=
  attributes w !! (s, name).

(** ** What the libraries decide

    The parts of ns-3 and 5G-LENA whose results [main] depends on but
    which are not in this repository. *)
Record Library := mkLibrary {
  (** [TypeId::LookupByName] finds a registered type of that name. *)
  typeRegistered : string -> bool;
  (** Position the hexagonal grid gives terminal [i] at creation. *)
  utPosition : nat -> Vector;
  (** Number of streams [NrHelper::AssignStreams] hands out. *)
  assignStreams : World -> DeviceKind -> Z -> Z;
  (** [CommandLineHelper::UserItemParse], per type of the bound variable. *)
  parseUint32 : string -> option N;
  parseDouble : string -> option Q;
  parseBool : bool -> string -> option bool;
  parseString : string -> option string;
  (** [CommandLine::HandleAttribute]: the name is a global value or an
      attribute path and the value was stored there. *)
  handleAttribute : string -> string -> bool
}.

(** ** [main]'s variables bound to the command line *)

Record Locals := mkLocals {
  rngSeed : N;
  rngRun : N;
  channelModel : string;
  channelConditionModel : string;
  numUes : N;
  numGnbs : N;
  centralFrequency : Q;
  logging : bool;
  errorModelType : string;
  amcSelectionModel : string
}.

(** Initial values, lines 102-125. *)
Definition initialLocals : Locals :=
  {| rngSeed := 1;
     rngRun := 1;
     channelModel := "ThreeGpp";
     channelConditionModel := "Default";
     numUes := 4;
     numGnbs := 1;
     centralFrequency := 305e8;
     logging := true;
     errorModelType := "ns3::NrEesmCcT1";
     amcSelectionModel := "ErrorModel" |}.

Definition set_rngSeed (n : N) (v : Locals) : Locals :=
  mkLocals n (rngRun v) (channelModel v) (channelConditionModel v) (numUes v)
           (numGnbs v) (centralFrequency v) (logging v) (errorModelType v)
           (amcSelectionModel v).
Definition set_rngRun (n : N) (v : Locals) : Locals :=
  mkLocals (rngSeed v) n (channelModel v) (channelConditionModel v) (numUes v)
           (numGnbs v) (centralFrequency v) (logging v) (errorModelType v)
           (amcSelectionModel v).
Definition set_channelModel (s : string) (v : Locals) : Locals :=
  mkLocals (rngSeed v) (rngRun v) s (channelConditionModel v) (numUes v)
           (numGnbs v) (centralFrequency v) (logging v) (errorModelType v)
           (amcSelectionModel v).
Definition set_channelConditionModel (s : string) (v : Locals) : Locals :=
  mkLocals (rngSeed v) (rngRun v) (channelModel v) s (numUes v)
           (numGnbs v) (centralFrequency v) (logging v) (errorModelType v)
           (amcSelectionModel v).
Definition set_numUes (n : N) (v : Locals) : Locals :=
  mkLocals (rngSeed v) (rngRun v) (channelModel v) (channelConditionModel v) n
           (numGnbs v) (centralFrequency v) (logging v) (errorModelType v)
           (amcSelectionModel v).
Definition set_numGnbs (n : N) (v : Locals) : Locals :=
  mkLocals (rngSeed v) (rngRun v) (channelModel v) (channelConditionModel v) (numUes v)
           n (centralFrequency v) (logging v) (errorModelType v)
           (amcSelectionModel v).
Definition set_centralFrequency (f : Q) (v : Locals) : Locals :=
  mkLocals (rngSeed v) (rngRun v) (channelModel v) (channelConditionModel v) (numUes v)
           (numGnbs v) f (logging v) (errorModelType v)
           (amcSelectionModel v).
Definition set_logging (b : bool) (v : Locals) : Locals :=
  mkLocals (rngSeed v) (rngRun v) (channelModel v) (channelConditionModel v) (numUes v)
           (numGnbs v) (centralFrequency v) b (errorModelType v)
           (amcSelectionModel v).
Definition set_errorModelType (s : string) (v : Locals) : Locals :=
  mkLocals (rngSeed v) (rngRun v) (channelModel v) (channelConditionModel v) (numUes v)
           (numGnbs v) (centralFrequency v) (logging v) s
           (amcSelectionModel v).
Definition set_amcSelectionModel (s : string) (v : Locals) : Locals :=
  mkLocals (rngSeed v) (rngRun v) (channelModel v) (channelConditionModel v) (numUes v)
           (numGnbs v) (centralFrequency v) (logging v) (errorModelType v)
           s.

(** Constants of [main], lines 107-118 and 173-180. *)
Definition bandwidth : Q := 100e6.
Definition simTime : Time := Seconds 10.
Definition udpTime : Time := MilliSeconds 0.
Definition maxDelay : Time := MilliSeconds 100.
Definition scenario : string := "UMa".
Definition numerology : Z := 1.
Definition ueTxPower : Z := 23.
Definition bsTxPower : Z := 41.
Definition ueSpeed : Q := 30.
Definition ueNumRows : Z := 1.
Definition ueNumCols : Z := 1.
Definition gnbNumRows : Z := 4.
Definition gnbNumCols : Z := 8.
Definition numCc : Z := 1.
Definition dlPort : Z := 1234.

(** ** [ns3::CommandLine] *)

(** One [--name=value] argument of [argv], already split at the [=]. *)
Definition Argument : Type := string * string.

(** [CommandLine::Item]: an option name and the typed store into the
    variable it was bound to. *)
Record Item := mkItem {
  m_name : string;
  m_help : string;
  m_store : string -> Locals -> option Locals
}.

(** [CommandLine::m_options]. *)
Definition CommandLine := list Item.

Definition AddValue (name help : string)
    (store : string -> Locals -> option Locals) (cmd : CommandLine) : CommandLine :=
  (cmd ++ [mkItem name help store])%list.

Section Program.
Context (lib : Library).

Definition bindUint32 (set : N -> Locals -> Locals) : string -> Locals -> option Locals :=
  fun value v => (fun n => set n v) <$> parseUint32 lib value.
Definition bindDouble (set : Q -> Locals -> Locals) : string -> Locals -> option Locals :=
  fun value v => (fun d => set d v) <$> parseDouble lib value.
Definition bindString (set : string -> Locals -> Locals) : string -> Locals -> option Locals :=
  fun value v => (fun s => set s v) <$> parseString lib value.
Definition bindBool (get : Locals -> bool) (set : bool -> Locals -> Locals)
    : string -> Locals -> option Locals :=
  fun value v => (fun b => set b v) <$> parseBool lib (get v) value.

(** [CommandLine::HandleArgument]: an option registered so far stores its
    value, any other name is tried as an attribute, and what neither
    accepts ends the program with [exit (1)]. *)
Definition HandleArgument (cmd : CommandLine) (a : Argument) (v : Locals) : Locals + Halt :=
  match find (fun item => String.eqb (m_name item) a.1) cmd with
  | Some item =>
      match m_store item a.2 v with
      | Some v' => inl v'
      | None => inr (Exit 1)
      end
  | None => if handleAttribute lib a.1 a.2 then inl v else inr (Exit 1)
  end.

(** [CommandLine::Parse]: the arguments in order, against the options
    registered at the time of the call. *)
Fixpoint Parse (cmd : CommandLine) (args : list Argument) (v : Locals) : Locals + Halt :=
  match args with
  | [] => inl v
  | a :: rest =>
      match HandleArgument cmd a v with
      | inl v' => Parse cmd rest v'
      | inr h => inr h
      end
  end.

(** The options registered before [cmd.Parse], lines 127-143. *)
Definition optionsAtParse : CommandLine :=
  AddValue "logging" "Enable logging" (bindBool logging set_logging)
  (AddValue "frequency" "The central carrier frequency in Hz."
     (bindDouble set_centralFrequency)
  (AddValue "gNbNum" "Number of gNBs in the simulation." (bindUint32 set_numGnbs)
  (AddValue "ueNum" "Number of UEs in the simulation." (bindUint32 set_numUes)
  (AddValue "channelConditionModel"
     "The channel condition model for the simulation. Choose among 'Default', 'LOS','NLOS', 'Buildings'."
     (bindString set_channelConditionModel)
  (AddValue "channelModel"
     "The channel model for the simulation, which can be 'NYU', 'ThreeGpp', 'TwoRay', 'Friis'. "
     (bindString set_channelModel)
  (AddValue "run" "RNG run number (default=1)" (bindUint32 set_rngRun)
  (AddValue "seed" "RNG seed value (default=1)" (bindUint32 set_rngSeed)
     []))))))).

(** The options registered after [cmd.Parse] has returned, lines 150-155. *)
Definition optionsAtEnd : CommandLine :=
  AddValue "amcSelectionModel" "AMC selection logic: ErrorModel or ShannonModel"
     (bindString set_amcSelectionModel)
  (AddValue "errorModelType"
     "NR Error Model Type (e.g., ns3::NrEesmCcT1, ns3::NrLteMiErrorModel)"
     (bindString set_errorModelType)
     optionsAtParse).

(** ** The stages of [main]                                                *)

Local Open Scope sim_scope.

(** [size_t] to [double]. *)
Definition toDouble (n : nat) : Q := inject_Z (Z.of_nat n).

(** Lines 156-159. *)
Definition enableLogging (v : Locals) : Sim unit :=
  if logging v then call (LogComponentEnable "GsocNrChannelModels") else ret tt.

(** [NS_LOG_INFO] writes only when the component was enabled. *)
Definition NS_LOG_INFO (v : Locals) (message : string) (args : list PrintfArg) : Sim unit :=
  if logging v then call (NsLogInfo message args) else ret tt.

Definition hexGridSet (f : HexGrid -> HexGrid) : Sim unit :=
  modify (fun w => with_hexGrid (f (hexGrid w)) w).

Definition SetUtHeight (h : Q) : Sim unit :=
  hexGridSet (fun g => mkHexGrid h (m_bsHeight g) (m_sectorization g) (m_isd g)
                                 (m_utNumber g) (m_bsNumber g)).
Definition SetBsHeight (h : Q) : Sim unit :=
  hexGridSet (fun g => mkHexGrid (m_utHeight g) h (m_sectorization g) (m_isd g)
                                 (m_utNumber g) (m_bsNumber g)).
Definition SetSectorization (n : Z) : Sim unit :=
  hexGridSet (fun g => mkHexGrid (m_utHeight g) (m_bsHeight g) n (m_isd g)
                                 (m_utNumber g) (m_bsNumber g)).
Definition set_m_isd (d : Q) : Sim unit :=
  hexGridSet (fun g => mkHexGrid (m_utHeight g) (m_bsHeight g) (m_sectorization g) d
                                 (m_utNumber g) (m_bsNumber g)).
Definition SetUtNumber (n : N) : Sim unit :=
  hexGridSet (fun g => mkHexGrid (m_utHeight g) (m_bsHeight g) (m_sectorization g) (m_isd g)
                                 n (m_bsNumber g)).
Definition SetBsNumber (n : N) : Sim unit :=
  hexGridSet (fun g => mkHexGrid (m_utHeight g) (m_bsHeight g) (m_sectorization g) (m_isd g)
                                 (m_utNumber g) n).

(** Modelled from the spec: [HexagonalGridScenarioHelper::
    CreateScenarioWithMobility] is library code.  Section 4.1 and 8 of the
    specification have it yield exactly the requested number of
    terminals; line 185 hands it the velocity the terminals start with
    (its comment: move UE with 3 km/h in x-axis).  The grid position of a
    terminal is the library's. *)
Definition createScenarioWithMobility (speed : Vector) (percentage : Q) : Sim unit :=
  modify (fun w =>
    with_nodes
      ((fun i => mkMobility (utPosition lib i) speed)
         <$> seq 0 (N.to_nat (m_utNumber (hexGrid w))))
      (N.to_nat (m_bsNumber (hexGrid w))) w) ;;
  call (CreateScenarioWithMobility speed percentage).

(** [ueNodes.GetN ()]. *)
Definition GetN : Sim nat := gets (fun w => length (ueNodes w)).

(** [ueNodes.Get (i)->GetObject<MobilityModel> ()->GetPosition ()]. *)
Definition GetPosition (ueIndex : nat) : Sim (option Vector) :=
  gets (fun w => position <$> ueNodes w !! ueIndex).

(** [mob->SetPosition (p)] on terminal [ueIndex]. *)
Definition setPosition (ueIndex : nat) (p : Vector) : Sim unit :=
  modify (fun w =>
    with_nodes (alter (fun m => mkMobility p (velocity m)) ueIndex (ueNodes w))
               (gNbNodes w) w) ;;
  call (SetPosition ueIndex p).

(** [mob->SetVelocity (v)] on terminal [ueIndex]. *)
Definition setVelocity (ueIndex : nat) (vel : Vector) : Sim unit :=
  modify (fun w =>
    with_nodes (alter (fun m => mkMobility (position m) vel) ueIndex (ueNodes w))
               (gNbNodes w) w) ;;
  call (SetVelocity ueIndex vel).

Definition printArgs (p : Vector) : list PrintfArg :=
  [ArgDouble (x p); ArgDouble (y p); ArgDouble (z p)].

(** Lines 194 and 198-202: the position written to terminal [ueIndex]. *)
Definition placement (ueIndex : nat) : Vector :=
  let position := mkVector 10 20 1.5 in
  if (0 <? ueIndex)%nat
  then mkVector (50 * toDouble ueIndex)%Q
                (30 * (if (ueIndex mod 2 =? 0)%nat then 1 else -1))%Q
                (z position)
  else position.

(** Body of the loop of lines 192-210. *)
Definition placeTerminal (v : Locals) (ueIndex : nat) : Sim unit :=
  bind (GetPosition ueIndex) (fun current =>
  NS_LOG_INFO v "UE [%p] at %v" (from_option printArgs [] current)) ;;
  let position := placement ueIndex in
  setPosition ueIndex position ;;
  call (Printf "UE [%zu] position set to (%.2f, %.2f, %.2f)\n"
               (ArgSize ueIndex :: printArgs position)).

(** Lines 217-218: the velocity written to terminal [ueIndex]. *)
Definition zigzag (ueIndex : nat) : Vector :=
  let speed := (1 + toDouble ueIndex * 3)%Q in
  mkVector speed ((if (ueIndex mod 2 =? 0)%nat then 1 else -1) * speed)%Q 0.

(** Body of the loop of lines 212-219. *)
Definition moveTerminal (ueIndex : nat) : Sim unit :=
  setVelocity ueIndex (zigzag ueIndex).

(** Lines 161-219: the scenario, the placement override and the mobility
    assignment. *)
Definition createScenario (v : Locals) : Sim unit :=
  SetUtHeight 1.5 ;;
  SetBsHeight 25 ;;
  SetSectorization 1 ;;
  set_m_isd 200 ;;
  SetUtNumber (numUes v) ;;
  SetBsNumber (numGnbs v) ;;
  createScenarioWithMobility (mkVector ueSpeed 0 0) 0.

Definition overridePlacement (v : Locals) : Sim unit :=
  bind (gets (fun w => (length (ueNodes w), gNbNodes w))) (fun n =>
  NS_LOG_INFO v "Number of UEs: %u, Number of gNBs: %u" [ArgSize n.1; ArgSize n.2]) ;;
  bind GetN (fun n => forEach (seq 0 n) (placeTerminal v)) ;;
  call (Printf "hex grid setup completed\n" []).

Definition assignMobility : Sim unit :=
  bind GetN (fun n => forEach (seq 0 n) moveTerminal).

Definition topology (v : Locals) : Sim unit :=
  createScenario v ;;
  overridePlacement v ;;
  assignMobility.

(** Lines 227-241.  Modelled from the spec: [TypeId::LookupByName] is
    library code; section 4.3 and 7 of the specification make a failed
    lookup of the error-model identifier fatal. *)
Definition amcDefaults (v : Locals) : Sim unit :=
  (if typeRegistered lib (errorModelType v)
   then setAttribute ConfigDefault "ns3::NrAmc::ErrorModelType"
                     (TypeIdValue (LookupByName (errorModelType v)))
   else abort (TypeIdNotFound (errorModelType v))) ;;
  (if String.eqb (amcSelectionModel v) "ErrorModel"
   then setAttribute ConfigDefault "ns3::NrAmc::AmcModel" (EnumValue ErrorModel)
   else if String.eqb (amcSelectionModel v) "ShannonModel"
   then setAttribute ConfigDefault "ns3::NrAmc::AmcModel" (EnumValue ShannonModel)
   else NS_FATAL_ERROR ("Invalid amcSelectionModel: " +:+ amcSelectionModel v)) ;;
  setAttribute ConfigDefault "ns3::NrRlcUm::MaxTxBufferSize" (UintegerValue 999999999).

(** Lines 243-250. *)
Definition createHelpers (v : Locals) : Sim unit :=
  call CreateEpcHelper ;;
  call CreateNrHelper ;;
  call CreateChannelHelper ;;
  call SetEpcHelper ;;
  call (CreateOperationBandContiguousCc (centralFrequency v) bandwidth numCc).

(** Lines 252-297: the channel-model dispatch. *)
Definition configureChannel (v : Locals) : Sim unit :=
  if String.eqb (channelModel v) "ThreeGpp"
     || String.eqb (channelModel v) "NYU"
     || String.eqb (channelModel v) "TwoRay"
  then
    call CreateIdealBeamformingHelper ;;
    modify (with_beamformingHelper true) ;;
    call SetBeamformingHelper ;;
    call (ConfigureFactories scenario (channelConditionModel v) (channelModel v)) ;;
    setAttribute Pathloss "ShadowingEnabled" (BooleanValue true) ;;
    (if String.eqb (channelConditionModel v) "Default"
        || String.eqb (channelConditionModel v) "Buildings"
     then setAttribute ChannelConditionModel "UpdatePeriod" (TimeValue (MilliSeconds 100))
     else ret tt) ;;
    setAttribute IdealBeamforming "BeamformingMethod" (TypeIdValue DirectPathBeamforming) ;;
    setAttribute UeAntenna "NumRows" (UintegerValue ueNumRows) ;;
    setAttribute UeAntenna "NumColumns" (UintegerValue ueNumCols) ;;
    setAttribute UeAntenna "AntennaElement" (PointerValue IsotropicAntennaModel) ;;
    setAttribute GnbAntenna "NumRows" (UintegerValue gnbNumRows) ;;
    setAttribute GnbAntenna "NumColumns" (UintegerValue gnbNumCols) ;;
    setAttribute GnbAntenna "AntennaElement" (PointerValue IsotropicAntennaModel)
  else if String.eqb (channelModel v) "Friis"
  then
    setTypeId UeAntennaType ParabolicAntennaModel ;;
    setTypeId GnbAntennaType ParabolicAntennaModel ;;
    setTypeId PropagationLoss FriisPropagationLossModel
  else
    NS_FATAL_ERROR ("Invalid channel model: " +:+ (channelModel v
                    +:+ ". Choose among 'ThreeGpp', 'NYU', 'TwoRay', 'Friis'.")).

(** Lines 299-316. *)
Definition configureDevices (v : Locals) : Sim unit :=
  call AssignChannelsToBands ;;
  call (Printf "Spectrum channel created and assigned to the band\n" []) ;;
  call GetAllBwps ;;
  setAttribute GnbPhy "TxPower" (DoubleValue (inject_Z bsTxPower)) ;;
  setAttribute GnbPhy "Numerology" (UintegerValue numerology) ;;
  setAttribute UePhy "TxPower" (DoubleValue (inject_Z ueTxPower)) ;;
  call (Printf "Attributes set for gNBs and UEs\n" []) ;;
  setAttribute Scheduler "FixedMcsDl" (BooleanValue false) ;;
  setAttribute Scheduler "FixedMcsUl" (BooleanValue false) ;;
  setTypeId UlErrorModel (LookupByName (errorModelType v)) ;;
  setTypeId DlErrorModel (LookupByName (errorModelType v)).

(** Lines 318-329: an [if] / [else if] without a final [else]. *)
Definition configureGnbAmc (v : Locals) : Sim unit :=
  if String.eqb (amcSelectionModel v) "ErrorModel"
  then
    setAttribute GnbDlAmc "AmcModel" (EnumValue ErrorModel) ;;
    setAttribute GnbUlAmc "AmcModel" (EnumValue ErrorModel)
  else if String.eqb (amcSelectionModel v) "ShannonModel"
  then
    setAttribute GnbDlAmc "AmcModel" (EnumValue ShannonModel) ;;
    setAttribute GnbUlAmc "AmcModel" (EnumValue ShannonModel)
  else ret tt.

(** [randomStream += nrHelper->AssignStreams (devices, randomStream)]. *)
Definition nrAssignStreams (kind : DeviceKind) : Sim unit :=
  bind (gets (fun w => assignStreams lib w kind (randomStream w))) (fun used =>
  bind (gets randomStream) (fun stream =>
  call (AssignStreams kind stream) ;;
  modify (with_randomStream (stream + used)%Z))).

(** Lines 330-336. *)
Definition installDevices : Sim unit :=
  bind (gets gNbNodes) (fun n =>
    modify (with_gNbNetDev (Some n)) ;; call (InstallGnbDevice n)) ;;
  bind GetN (fun n =>
    modify (with_ueNetDev (Some n)) ;; call (InstallUeDevice n)) ;;
  nrAssignStreams GnbDevices ;;
  nrAssignStreams UeDevices ;;
  call (Printf "NetDevices installed and streams assigned\n" []).

(** Lines 337-363. *)
Definition buildFabric : Sim unit :=
  call GetPgwNode ;;
  call CreateRemoteHost ;;
  call InternetInstallRemoteHost ;;
  call (Printf "Internet stack installed on remote host\n" []) ;;
  setAttribute P2pDevice "DataRate" (DataRateValue "100Gb/s") ;;
  setAttribute P2pDevice "Mtu" (UintegerValue 2500) ;;
  setAttribute P2pChannel "Delay" (TimeValue (MilliSeconds 10)) ;;
  call P2pInstall ;;
  call (Ipv4SetBase "1.0.0.0" "255.0.0.0") ;;
  call Ipv4Assign ;;
  call (AddNetworkRouteTo "7.0.0.0" "255.0.0.0" 1) ;;
  call InternetInstallUes ;;
  call AssignUeIpv4Address ;;
  call (Printf "IPv4 addresses assigned to UEs\n" []).

(** Lines 364-383. *)
Definition createTraffic : Sim unit :=
  bind GetN (fun n =>
    forEach (seq 0 n)
      (fun i => call (TrafficGeneratorInstall i dlPort TrafficGeneratorNgmnGaming))) ;;
  call AttachToClosestGnb ;;
  call (ServerAppsStart udpTime) ;;
  call (ClientAppsStart udpTime) ;;
  call (ServerAppsStop simTime) ;;
  call (ClientAppsStop simTime) ;;
  call (Printf "Gaming applications started\n" []).

(** Lines 384-388. *)
Definition enableTraces : Sim unit :=
  call EnableDlDataPhyTraces ;;
  call EnableDlMacSchedTraces ;;
  call EnableGnbMacCtrlMsgsTraces ;;
  call EnablePathlossTraces.

(** Lines 390-407. *)
Definition runExperiment (v : Locals) : Sim unit :=
  call (SimulatorStop simTime) ;;
  call (SetSeed (rngSeed v)) ;;
  call (SetRun (rngRun v)) ;;
  call SimulatorRun ;;
  call ReportRuntime ;;
  call SimulatorDestroy ;;
  call (Printf "Simulation completed\n" []).

(** Everything between the command line and the event loop, lines
    156-388. *)
Definition untilChannel (v : Locals) : Sim unit :=
  enableLogging v ;;
  topology v ;;
  amcDefaults v ;;
  createHelpers v.

Definition untilGnbAmc (v : Locals) : Sim unit :=
  untilChannel v ;;
  configureChannel v ;;
  configureDevices v.

Definition setup (v : Locals) : Sim unit :=
  untilGnbAmc v ;;
  configureGnbAmc v ;;
  installDevices ;;
  buildFabric ;;
  createTraffic ;;
  enableTraces.

(** [main] once its variables hold their final values. *)
Definition experiment (v : Locals) : Sim unit :=
  setup v ;;
  runExperiment v.

(** Lines 145-149. *)
Definition reportParameters (v : Locals) : Sim unit :=
  call (Printf "Channel model: %s\n" [ArgString (channelModel v)]) ;;
  call (Printf "Channel condition model: %s\n" [ArgString (channelConditionModel v)]) ;;
  call (Printf "Number of UEs: %u\n" [ArgUint (numUes v)]) ;;
  call (Printf "Number of gNBs: %u\n" [ArgUint (numGnbs v)]) ;;
  call (Printf "Central frequency: %.2f GHz\n" [ArgDouble (centralFrequency v / 1e9)%Q]).

(** Lines 127-155: the options of lines 129-143 are registered, the
    command line is parsed against them, and only then are
    [errorModelType] and [amcSelectionModel] registered. *)
Definition commandLine (args : list Argument) : Sim Locals :=
  let cmd := optionsAtParse in
  match Parse cmd args initialLocals with
  | inr h => abort h
  | inl v =>
      reportParameters v ;;
      let cmd := AddValue "amcSelectionModel"
                   "AMC selection logic: ErrorModel or ShannonModel"
                   (bindString set_amcSelectionModel)
                 (AddValue "errorModelType"
                   "NR Error Model Type (e.g., ns3::NrEesmCcT1, ns3::NrLteMiErrorModel)"
                   (bindString set_errorModelType) cmd) in
      ret v
  end.

Definition main (args : list Argument) : Sim unit :=
  call (Printf "Starting GSoC NR Channel Models Example\n" []) ;;
  bind (commandLine args) experiment.

End Program.

(** ** Observations used in the statements *)

Definition halt_of {A} (o : Outcome A) : option Halt :=
  match o with Ret _ _ => None | Abort h _ => Some h end.

(** The velocities a journal gives to terminal [i], oldest first: the one
    every terminal starts with at creation, then each [SetVelocity]. *)
Definition velocityGiven (i : nat) (c : Call) : list Vector :=
  match c with
  | CreateScenarioWithMobility speed _ => [speed]
  | SetVelocity k vel => if decide (k = i) then [vel] else []
  | _ => []
  end.

Definition velocityAssignments (i : nat) (j : list Call) : list Vector :=
  flat_map (velocityGiven i) j.

(** The positions written to terminal [i] after its creation. *)
Definition positionGiven (i : nat) (c : Call) : list Vector :=
  match c with
  | SetPosition k p => if decide (k = i) then [p] else []
  | _ => []
  end.

Definition positionMutations (i : nat) (j : list Call) : list Vector :=
  flat_map (positionGiven i) j.

(** Calls that create the terminals or write their mobility. *)
Definition mobilityCall (c : Call) : bool :=
  match c with
  | CreateScenarioWithMobility _ _ | SetPosition _ _ | SetVelocity _ _ => true
  | _ => false
  end.

(** The configuration errors of section 7 of the specification, in the
    order [main] meets them. *)
Definition configurationError (lib : Library) (v : Locals) : option Halt :=
  if negb (typeRegistered lib (errorModelType v))
  then Some (TypeIdNotFound (errorModelType v))
  else if negb (String.eqb (amcSelectionModel v) "ErrorModel"
                || String.eqb (amcSelectionModel v) "ShannonModel")
  then Some (NsFatalError ("Invalid amcSelectionModel: " +:+ amcSelectionModel v))
  else if negb (String.eqb (channelModel v) "ThreeGpp"
                || String.eqb (channelModel v) "NYU"
                || String.eqb (channelModel v) "TwoRay"
                || String.eqb (channelModel v) "Friis")
  then Some (NsFatalError ("Invalid channel model: " +:+ (channelModel v
                           +:+ ". Choose among 'ThreeGpp', 'NYU', 'TwoRay', 'Friis'.")))
  else None.

(** Calls that belong to the stages before device installation. *)
Definition beforeProvisioning (c : Call) : bool :=
  match c with
  | Printf _ _ | LogComponentEnable _ | NsLogInfo _ _
  | CreateScenarioWithMobility _ _ | SetPosition _ _ | SetVelocity _ _
  | CreateEpcHelper | CreateNrHelper | CreateChannelHelper | SetEpcHelper
  | CreateOperationBandContiguousCc _ _ _
  | CreateIdealBeamformingHelper | SetBeamformingHelper
  | ConfigureFactories _ _ _ => true
  | _ => false
  end.

(** A library to run the model on: the error models of the NR module are
    registered, unsigned values are decimal numerals, and no name is a
    global attribute. *)
Definition exampleLibrary : Library :=
  {| typeRegistered := fun name =>
       bool_decide (name ∈ ["ns3::NrEesmCcT1"; "ns3::NrEesmCcT2"; "ns3::NrEesmIrT1";
                            "ns3::NrEesmIrT2"; "ns3::NrLteMiErrorModel"]);
     utPosition := fun i => mkVector (toDouble i) 0 1.5;
     assignStreams := fun _ kind _ =>
       match kind with GnbDevices => 2%Z | UeDevices => 1%Z end;
     parseUint32 := fun s => N.of_uint <$> NilZero.uint_of_string s;
     parseDouble := fun s => (fun u => inject_Z (Z.of_uint u)) <$> NilZero.uint_of_string s;
     parseBool := fun current s =>
       if String.eqb s "" then Some (negb current)
       else if String.eqb s "true" then Some true
       else if String.eqb s "false" then Some false
       else None;
     parseString := Some;
     handleAttribute := fun _ _ => false |}.

(** Calls of the configuration stages: everything before the devices are
    installed. *)
Definition configurationCall (c : Call) : bool :=
  beforeProvisioning c
  || match c with AssignChannelsToBands | GetAllBwps => true | _ => false end.


Definition isGenerator (c : Call) : bool :=
  match c with TrafficGeneratorInstall _ _ _ => true | _ => false end.

(** Calls that write to the ns-3 log. *)
Definition logCall (c : Call) : bool :=
  match c with LogComponentEnable _ | NsLogInfo _ _ => true | _ => false end.




(** The calls made once the configuration is complete, in order. *)
Definition provisioningCalls (v : Locals) (gnbs ues : nat) (stream usedGnb : Z) : list Call :=
  [InstallGnbDevice gnbs; InstallUeDevice ues;
   AssignStreams GnbDevices stream; AssignStreams UeDevices (stream + usedGnb)%Z;
   Printf "NetDevices installed and streams assigned\n" [];
   GetPgwNode; CreateRemoteHost; InternetInstallRemoteHost;
   Printf "Internet stack installed on remote host\n" [];
   P2pInstall; Ipv4SetBase "1.0.0.0" "255.0.0.0"; Ipv4Assign;
   AddNetworkRouteTo "7.0.0.0" "255.0.0.0" 1; InternetInstallUes;
   AssignUeIpv4Address;
   Printf "IPv4 addresses assigned to UEs\n" []]
  ++ List.map (fun i => TrafficGeneratorInstall i dlPort TrafficGeneratorNgmnGaming)
              (seq 0 ues)
  ++ [AttachToClosestGnb; ServerAppsStart udpTime; ClientAppsStart udpTime;
      ServerAppsStop simTime; ClientAppsStop simTime;
      Printf "Gaming applications started\n" [];
      EnableDlDataPhyTraces; EnableDlMacSchedTraces;
      EnableGnbMacCtrlMsgsTraces; EnablePathlossTraces;
      SimulatorStop simTime; SetSeed (rngSeed v); SetRun (rngRun v);
      SimulatorRun; ReportRuntime; SimulatorDestroy;
      Printf "Simulation completed\n" []].

(** ** Properties of computations

    [preserves f m]: [m] leaves the observation [f] of the world alone.
    [emits P m]: every call [m] adds to the journal satisfies [P].
    [total m]: [m] never aborts. *)

Definition preserves {A B} (f : World -> A) (m : Sim B) : Prop :=
  forall w, f (world_of (m w)) = f w.

Definition emits {B} (P : Call -> Prop) (m : Sim B) : Prop :=
  forall w, exists J, journal (world_of (m w)) = (journal w ++ J)%list /\ Forall P J.

Definition total {B} (m : Sim B) : Prop := forall w, aborted (m w) = false.

(** * Reasoning about [Sim] programs *)

Lemma bind_Ret {A B} (m : Sim A) (k : A -> Sim B) w a w' :
  m w = Ret a w' -> bind m k w = k a w'.
Proof. intros E. unfold bind. now rewrite E. Qed.

Lemma bind_Abort {A B} (m : Sim A) (k : A -> Sim B) w h w' :
  m w = Abort h w' -> bind m k w = Abort h w'.
Proof. intros E. unfold bind. now rewrite E. Qed.

(** A loop whose body keeps an invariant indexed by the counter runs to
    the end and establishes the invariant at the bound. *)
Lemma forEach_invariant (I : nat -> World -> Prop) (body : nat -> Sim unit) :
  forall k a w,
    (forall i w1, (a <= i < a + k)%nat -> I i w1 ->
                  exists w2, body i w1 = Ret tt w2 /\ I (S i) w2) ->
    I a w ->
    exists w', forEach (seq a k) body w = Ret tt w' /\ I (a + k)%nat w'.
Proof.
  induction k as [|k IH]; intros a w Hbody Ha; simpl.
  - exists w. rewrite Nat.add_0_r. auto.
  - destruct (Hbody a w) as (w1 & E1 & H1); [lia | assumption |].
    destruct (IH (S a) w1) as (w' & E' & H'); [| assumption |].
    + intros i w2 Hi. apply Hbody. lia.
    + exists w'. split.
      * now rewrite (bind_Ret _ _ _ _ _ E1).
      * now replace (a + S k)%nat with (S a + k)%nat by lia.
Qed.

(** ** Frame conditions: what a computation leaves alone *)


Lemma preserves_ret {A B} (f : World -> A) (b : B) : preserves f (ret b).
Proof. now intros w. Qed.

Lemma preserves_abort {A B} (f : World -> A) h : preserves f (@abort B h).
Proof. now intros w. Qed.

Lemma preserves_fatal {A B} (f : World -> A) msg : preserves f (@NS_FATAL_ERROR B msg).
Proof. now intros w. Qed.

Lemma preserves_gets {A B} (f : World -> A) (g : World -> B) : preserves f (gets g).
Proof. now intros w. Qed.

Lemma preserves_modify {A} (f : World -> A) g :
  (forall w, f (g w) = f w) -> preserves f (modify g).
Proof. intros H w. apply H. Qed.

Lemma preserves_bind {A B C} (f : World -> A) (m : Sim B) (k : B -> Sim C) :
  preserves f m -> (forall b, preserves f (k b)) -> preserves f (bind m k).
Proof.
  intros Hm Hk w. unfold bind. specialize (Hm w).
  destruct (m w) as [b w1|h w1]; simpl in *; [|assumption].
  now rewrite Hk.
Qed.

Lemma preserves_forEach {A} (f : World -> A) body l :
  (forall i, preserves f (body i)) -> preserves f (forEach l body).
Proof.
  intros Hb. induction l as [|i l IH]; simpl.
  - apply preserves_ret.
  - apply preserves_bind; auto.
Qed.

Lemma preserves_if {A B} (f : World -> A) (c : bool) (m1 m2 : Sim B) :
  preserves f m1 -> preserves f m2 -> preserves f (if c then m1 else m2).
Proof. now destruct c. Qed.

(** ** What a computation adds to the journal *)


Lemma emits_silent {B} P (m : Sim B) : preserves journal m -> emits P m.
Proof. intros H w. exists []. rewrite H, app_nil_r. auto. Qed.

Lemma emits_call (P : Call -> Prop) c : P c -> emits P (call c).
Proof. intros H w. exists [c]. simpl. auto. Qed.

Lemma emits_bind {B C} P (m : Sim B) (k : B -> Sim C) :
  emits P m -> (forall b, emits P (k b)) -> emits P (bind m k).
Proof.
  intros Hm Hk w. unfold bind. destruct (Hm w) as (J1 & E1 & F1).
  destruct (m w) as [b w1|h w1]; simpl in *.
  - destruct (Hk b w1) as (J2 & E2 & F2). exists (J1 ++ J2)%list.
    rewrite E2, E1, app_assoc. split; [reflexivity|]. now apply Forall_app.
  - exists J1. auto.
Qed.

Lemma emits_forEach P body l :
  (forall i, emits P (body i)) -> emits P (forEach l body).
Proof.
  intros Hb. induction l as [|i l IH]; simpl.
  - apply emits_silent, preserves_ret.
  - apply emits_bind; auto.
Qed.

Lemma emits_if {B} P (c : bool) (m1 m2 : Sim B) :
  emits P m1 -> emits P m2 -> emits P (if c then m1 else m2).
Proof. now destruct c. Qed.

(** ** Computations that cannot abort *)


Lemma total_ret {B} (b : B) : total (ret b).
Proof. now intros w. Qed.

Lemma total_gets {B} (g : World -> B) : total (gets g).
Proof. now intros w. Qed.

Lemma total_modify g : total (modify g).
Proof. now intros w. Qed.

Lemma total_bind {B C} (m : Sim B) (k : B -> Sim C) :
  total m -> (forall b, total (k b)) -> total (bind m k).
Proof.
  intros Hm Hk w. unfold bind. specialize (Hm w).
  destruct (m w); simpl in *; [apply Hk | discriminate].
Qed.

Lemma total_forEach body l : (forall i, total (body i)) -> total (forEach l body).
Proof.
  intros Hb. induction l; simpl; [apply total_ret | apply total_bind; auto].
Qed.

Lemma total_if {B} (c : bool) (m1 m2 : Sim B) :
  total m1 -> total m2 -> total (if c then m1 else m2).
Proof. now destruct c. Qed.

Lemma total_Ret (m : Sim unit) w : total m -> m w = Ret tt (world_of (m w)).
Proof. intros H. specialize (H w). destruct (m w) as [[] ?|]; [reflexivity|discriminate]. Qed.

(** ** Unfolding the program *)

Create HintDb stages discriminated.
#[local] Hint Unfold main experiment setup untilGnbAmc untilChannel runExperiment
  enableTraces createTraffic buildFabric installDevices nrAssignStreams
  configureGnbAmc configureDevices configureChannel createHelpers amcDefaults
  topology assignMobility overridePlacement createScenario moveTerminal
  placeTerminal setVelocity setPosition createScenarioWithMobility
  NS_LOG_INFO enableLogging reportParameters : stages.

Create HintDb primitives discriminated.
#[local] Hint Unfold GetPosition GetN SetUtHeight SetBsHeight SetSectorization
  set_m_isd SetUtNumber SetBsNumber hexGridSet call setAttribute setTypeId
  NS_FATAL_ERROR : primitives.

(** Side condition of [preserves_modify]: the update does not reach the
    observed field, or writes another key of the map. *)
Ltac untouched :=
  intros; unfold attribute; cbn;
  rewrite ?lookup_insert_ne by (discriminate || congruence);
  reflexivity.

Ltac frame :=
  autounfold with stages; autounfold with primitives;
  repeat first
    [ progress intros
    | apply preserves_bind | apply preserves_if | apply preserves_forEach
    | apply preserves_ret | apply preserves_abort | apply preserves_gets
    | apply preserves_modify; untouched ].

Ltac never_aborts :=
  autounfold with stages; autounfold with primitives;
  repeat first
    [ progress intros
    | apply total_bind | apply total_if | apply total_forEach
    | apply total_ret | apply total_gets | apply total_modify ].

Ltac journal_only :=
  autounfold with stages;
  repeat first
    [ progress intros
    | apply emits_bind | apply emits_if | apply emits_forEach
    | apply emits_call; first [reflexivity | exact I]
    | solve [apply emits_silent; frame] ].

(** ** The topology stage *)

Section History.
Context {X : Type} (h : Call -> list X).
Hypothesis h_printf : forall f a, h (Printf f a) = [].
Hypothesis h_log : forall m a, h (NsLogInfo m a) = [].

Lemma placeTerminal_step v i w :
  exists w' J,
    placeTerminal v i w = Ret tt w' /\
    ueNodes w' = alter (fun m => mkMobility (placement i) (velocity m)) i (ueNodes w) /\
    journal w' = (journal w ++ J)%list /\
    flat_map h J = h (SetPosition i (placement i)).
Proof.
  autounfold with stages; autounfold with primitives. unfold bind, modify, gets.
  destruct (logging v); cbn; do 2 eexists.
  all: split; [reflexivity|]; cbn; split; [reflexivity|].
  all: rewrite <- !app_assoc; split; [reflexivity|]; cbn.
  all: now rewrite ?h_printf, ?h_log, ?app_nil_r.
Qed.

Lemma moveTerminal_step i w :
  exists w' J,
    moveTerminal i w = Ret tt w' /\
    ueNodes w' = alter (fun m => mkMobility (position m) (zigzag i)) i (ueNodes w) /\
    journal w' = (journal w ++ J)%list /\
    flat_map h J = h (SetVelocity i (zigzag i)).
Proof.
  autounfold with stages; autounfold with primitives. unfold bind, modify. cbn. do 2 eexists.
  split; [reflexivity|]; cbn; split; [reflexivity|].
  split; [reflexivity|]. cbn. now rewrite app_nil_r.
Qed.

(** A loop that rewrites terminal [i] at iteration [i]. *)
Lemma rewrite_loop (body : nat -> Sim unit) (f : nat -> MobilityModel -> MobilityModel)
    (c : nat -> Call) :
  (forall i w, exists w' J,
      body i w = Ret tt w' /\
      ueNodes w' = alter (f i) i (ueNodes w) /\
      journal w' = (journal w ++ J)%list /\
      flat_map h J = h (c i)) ->
  forall n w, exists w' J,
    forEach (seq 0 n) body w = Ret tt w' /\
    length (ueNodes w') = length (ueNodes w) /\
    (forall j, ueNodes w' !! j =
               if (j <? n)%nat then f j <$> ueNodes w !! j else ueNodes w !! j) /\
    journal w' = (journal w ++ J)%list /\
    flat_map h J = flat_map (fun i => h (c i)) (seq 0 n).
Proof.
  intros Hbody n w.
  destruct (forEach_invariant
    (fun i w1 =>
       length (ueNodes w1) = length (ueNodes w) /\
       (forall j, ueNodes w1 !! j =
                  if (j <? i)%nat then f j <$> ueNodes w !! j else ueNodes w !! j) /\
       exists J, journal w1 = (journal w ++ J)%list /\
                 flat_map h J = flat_map (fun i => h (c i)) (seq 0 i))
    body n 0%nat w) as (w' & Hrun & Hlen & Hnodes & J & HJ & Hh).
  - intros i w1 _ (Hlen & Hnodes & J & HJ & Hh).
    destruct (Hbody i w1) as (w2 & J2 & Hrun & Hn2 & HJ2 & Hh2).
    exists w2. split; [assumption|]. split; [|split].
    + now rewrite Hn2, length_alter.
    + intros j. rewrite Hn2. destruct (decide (i = j)) as [<-|Hne].
      * rewrite list_lookup_alter_eq, Hnodes.
        rewrite (proj2 (Nat.ltb_ge i i)) by lia.
        now rewrite (proj2 (Nat.ltb_lt i (S i))) by lia.
      * rewrite list_lookup_alter_ne by assumption. rewrite Hnodes.
        destruct (j <? i)%nat eqn:E1, (j <? S i)%nat eqn:E2; try reflexivity.
        -- apply Nat.ltb_lt in E1. apply Nat.ltb_ge in E2. lia.
        -- apply Nat.ltb_ge in E1. apply Nat.ltb_lt in E2. lia.
    + exists (J ++ J2)%list. rewrite HJ2, HJ, app_assoc. split; [reflexivity|].
      rewrite flat_map_app, Hh, Hh2, seq_S, flat_map_app. cbn. now rewrite app_nil_r.
  - split; [reflexivity|]. split; [now intros j|]. exists []. now rewrite app_nil_r.
  - exists w', J. auto.
Qed.


Lemma createScenario_run lib v w :
  exists w',
    createScenario lib v w = Ret tt w' /\
    ueNodes w' = ((fun i => mkMobility (utPosition lib i) (mkVector ueSpeed 0 0))
                    <$> seq 0 (N.to_nat (numUes v))) /\
    hexGrid w' = mkHexGrid 1.5 25 1 200 (numUes v) (numGnbs v) /\
    journal w' = (journal w ++ [CreateScenarioWithMobility (mkVector ueSpeed 0 0) 0])%list.
Proof. eexists. split; [reflexivity|]. cbn. auto. Qed.

Lemma overridePlacement_run v w :
  exists w' J,
    overridePlacement v w = Ret tt w' /\
    length (ueNodes w') = length (ueNodes w) /\
    (forall j, ueNodes w' !! j =
               (fun m => mkMobility (placement j) (velocity m)) <$> ueNodes w !! j) /\
    hexGrid w' = hexGrid w /\
    journal w' = (journal w ++ J)%list /\
    flat_map h J =
      flat_map (fun i => h (SetPosition i (placement i))) (seq 0 (length (ueNodes w))).
Proof.
  set (n := length (ueNodes w)).
  assert (exists w1 J1, bind (gets (fun w => (length (ueNodes w), gNbNodes w)))
            (fun n => NS_LOG_INFO v "Number of UEs: %u, Number of gNBs: %u"
                                  [ArgSize n.1; ArgSize n.2]) w = Ret tt w1 /\
          ueNodes w1 = ueNodes w /\ hexGrid w1 = hexGrid w /\
          journal w1 = (journal w ++ J1)%list /\ flat_map h J1 = [])
    as (w1 & J1 & E1 & N1 & G1 & HJ1 & Hh1).
  { unfold NS_LOG_INFO, bind, gets, call, modify. destruct (logging v); cbn.
    - exists (with_journal (journal w ++ [NsLogInfo "Number of UEs: %u, Number of gNBs: %u"
                [ArgSize (length (ueNodes w)); ArgSize (gNbNodes w)]])%list w), 
             [NsLogInfo "Number of UEs: %u, Number of gNBs: %u"
                [ArgSize (length (ueNodes w)); ArgSize (gNbNodes w)]].
      cbn. rewrite h_log. auto.
    - exists w, []. rewrite app_nil_r. auto. }
  destruct (rewrite_loop (placeTerminal v)
              (fun j m => mkMobility (placement j) (velocity m))
              (fun i => SetPosition i (placement i))
              (placeTerminal_step v) n w1) as (w2 & J2 & E2 & L2 & N2 & HJ2 & Hh2).
  assert (hexGrid w2 = hexGrid w1) as G2.
  { assert (preserves hexGrid (forEach (seq 0 n) (placeTerminal v))) as P.
    { frame. }
    specialize (P w1). now rewrite E2 in P. }
  eexists. exists (J1 ++ J2 ++ [Printf "hex grid setup completed\n" []])%list.
  split.
  { unfold overridePlacement. rewrite (bind_Ret _ _ _ _ _ E1).
    unfold GetN at 1. unfold bind at 1. unfold gets at 1. unfold bind at 1.
    rewrite N1. fold n. rewrite E2. reflexivity. }
  cbn. split; [now rewrite L2, N1|]. split.
  { intros j. rewrite N2, N1. destruct (j <? n)%nat eqn:E; [reflexivity|].
    apply Nat.ltb_ge in E. now rewrite (lookup_ge_None_2 (ueNodes w) j). }
  split; [now rewrite G2, G1|]. split.
  { rewrite HJ2, HJ1, <- !app_assoc. reflexivity. }
  rewrite !flat_map_app, Hh1, Hh2. cbn. now rewrite h_printf, !app_nil_r.
Qed.

Lemma assignMobility_run w :
  exists w' J,
    assignMobility w = Ret tt w' /\
    length (ueNodes w') = length (ueNodes w) /\
    (forall j, ueNodes w' !! j =
               (fun m => mkMobility (position m) (zigzag j)) <$> ueNodes w !! j) /\
    journal w' = (journal w ++ J)%list /\
    flat_map h J =
      flat_map (fun i => h (SetVelocity i (zigzag i))) (seq 0 (length (ueNodes w))).
Proof.
  set (n := length (ueNodes w)).
  destruct (rewrite_loop moveTerminal
              (fun j m => mkMobility (position m) (zigzag j))
              (fun i => SetVelocity i (zigzag i))
              moveTerminal_step n w) as (w2 & J2 & E2 & L2 & N2 & HJ2 & Hh2).
  exists w2, J2. split.
  { unfold assignMobility, GetN, bind at 1, gets. fold n. exact E2. }
  split; [assumption|]. split; [|auto].
  intros j. rewrite N2. destruct (j <? n)%nat eqn:E; [reflexivity|].
  apply Nat.ltb_ge in E. now rewrite (lookup_ge_None_2 (ueNodes w) j).
Qed.


Lemma placed_run lib v w :
  exists w' J,
    bind (createScenario lib v) (fun _ => overridePlacement v) w = Ret tt w' /\
    length (ueNodes w') = N.to_nat (numUes v) /\
    (forall j, (j < N.to_nat (numUes v))%nat ->
       ueNodes w' !! j = Some (mkMobility (placement j) (mkVector ueSpeed 0 0))) /\
    hexGrid w' = mkHexGrid 1.5 25 1 200 (numUes v) (numGnbs v) /\
    journal w' = (journal w ++ J)%list /\
    flat_map h J =
      (h (CreateScenarioWithMobility (mkVector ueSpeed 0 0) 0)
       ++ flat_map (fun i => h (SetPosition i (placement i)))
                   (seq 0 (N.to_nat (numUes v))))%list.
Proof.
  destruct (createScenario_run lib v w) as (w1 & E1 & N1 & G1 & J1).
  destruct (overridePlacement_run v w1) as (w2 & J2 & E2 & L2 & N2 & G2 & HJ2 & Hh2).
  assert (length (ueNodes w1) = N.to_nat (numUes v)) as L1
    by now rewrite N1, length_fmap, length_seq.
  exists w2, (CreateScenarioWithMobility (mkVector ueSpeed 0 0) 0 :: J2).
  split; [now rewrite (bind_Ret _ _ _ _ _ E1)|].
  split; [congruence|]. split.
  { intros j Hj. rewrite N2, N1, list_lookup_fmap, lookup_seq_lt by assumption.
    reflexivity. }
  split; [congruence|]. split.
  { now rewrite HJ2, J1, <- app_assoc. }
  cbn. now rewrite Hh2, L1.
Qed.

Lemma topology_run lib v w :
  exists w' J,
    topology lib v w = Ret tt w' /\
    length (ueNodes w') = N.to_nat (numUes v) /\
    (forall j, (j < N.to_nat (numUes v))%nat ->
       ueNodes w' !! j = Some (mkMobility (placement j) (zigzag j))) /\
    hexGrid w' = mkHexGrid 1.5 25 1 200 (numUes v) (numGnbs v) /\
    journal w' = (journal w ++ J)%list /\
    flat_map h J =
      (h (CreateScenarioWithMobility (mkVector ueSpeed 0 0) 0)
       ++ flat_map (fun i => h (SetPosition i (placement i)))
                   (seq 0 (N.to_nat (numUes v)))
       ++ flat_map (fun i => h (SetVelocity i (zigzag i)))
                   (seq 0 (N.to_nat (numUes v))))%list.
Proof.
  destruct (placed_run lib v w) as (w2 & J2 & E2 & L2 & N2 & G2 & HJ2 & Hh2).
  destruct (assignMobility_run w2) as (w3 & J3 & E3 & L3 & N3 & HJ3 & Hh3).
  assert (hexGrid w3 = hexGrid w2) as G3.
  { assert (preserves hexGrid assignMobility) as P.
    { frame. }
    specialize (P w2). now rewrite E3 in P. }
  exists w3, (J2 ++ J3)%list. split.
  { unfold topology. revert E2. unfold bind.
    destruct (createScenario lib v w) as [[] w1|]; [|discriminate].
    intros E2. now rewrite E2. }
  split; [congruence|]. split.
  { intros j Hj. now rewrite N3, N2. }
  split; [congruence|]. split.
  { now rewrite HJ3, HJ2, app_assoc. }
  now rewrite flat_map_app, Hh2, Hh3, L2, <- app_assoc.
Qed.

End History.

Lemma even_mod2 i : (i mod 2 =? 0)%nat = Nat.even i.
Proof.
  pose proof (Nat.div_mod_eq i 2) as D.
  pose proof (Nat.mod_upper_bound i 2 ltac:(lia)) as B.
  destruct (Nat.even i) eqn:E.
  - apply Nat.even_spec in E as [k Hk]. apply Nat.eqb_eq. lia.
  - apply Nat.eqb_neq. intros Z0.
    assert (Nat.even i = true) as C by (apply Nat.even_spec; exists (i / 2)%nat; lia).
    congruence.
Qed.

Lemma placement_spec i :
  placement i =
    if decide (i = 0)%nat
    then mkVector 10 20 1.5
    else mkVector (inject_Z (50 * Z.of_nat i)) (if Nat.even i then 30 else -30) 1.5.
Proof.
  unfold placement. destruct i as [|i]; [reflexivity|].
  rewrite even_mod2. cbn [decide]. 
  destruct (decide (S i = 0%nat)); [discriminate|].
  cbn -[Nat.even Z.of_nat Z.mul]. now destruct (Nat.even (S i)).
Qed.

Lemma zigzag_spec i :
  zigzag i =
    if Nat.even i
    then mkVector (inject_Z (1 + 3 * Z.of_nat i)) (inject_Z (1 + 3 * Z.of_nat i)) 0
    else mkVector (inject_Z (1 + 3 * Z.of_nat i)) (inject_Z (- (1 + 3 * Z.of_nat i))) 0.
Proof.
  unfold zigzag. rewrite even_mod2.
  destruct (Nat.even i); unfold toDouble, inject_Z, Qplus, Qmult; cbn -[Z.of_nat Z.mul Z.add];
    f_equal; f_equal; lia.
Qed.

(** ** Where [main] can stop *)

Lemma halt_bind {B} (m : Sim unit) (k : unit -> Sim B) w :
  halt_of (bind m k w) =
    match halt_of (m w) with
    | Some h => Some h
    | None => halt_of (k tt (world_of (m w)))
    end.
Proof. unfold bind. now destruct (m w) as [[] w'|h w']. Qed.

Lemma world_bind {B} (m : Sim unit) (k : unit -> Sim B) w :
  world_of (bind m k w) =
    match halt_of (m w) with
    | Some _ => world_of (m w)
    | None => world_of (k tt (world_of (m w)))
    end.
Proof. unfold bind. now destruct (m w) as [[] w'|h w']. Qed.

Lemma halt_total {B} (m : Sim B) w : total m -> halt_of (m w) = None.
Proof. intros H. specialize (H w). now destruct (m w). Qed.

Lemma outcome_eta (o : Outcome unit) :
  o = match halt_of o with
      | Some h => Abort h (world_of o)
      | None => Ret tt (world_of o)
      end.
Proof. now destruct o as [[] w|h w]. Qed.

Ltac case_tests :=
  repeat match goal with
         | |- context [if ?b then _ else _] => destruct b; cbn
         end.

Lemma amcDefaults_halt lib v w :
  halt_of (amcDefaults lib v w) =
    if negb (typeRegistered lib (errorModelType v))
    then Some (TypeIdNotFound (errorModelType v))
    else if negb (String.eqb (amcSelectionModel v) "ErrorModel"
                  || String.eqb (amcSelectionModel v) "ShannonModel")
    then Some (NsFatalError ("Invalid amcSelectionModel: " +:+ amcSelectionModel v))
    else None.
Proof.
  unfold amcDefaults. autounfold with primitives. unfold bind, modify, abort.
  destruct (typeRegistered lib (errorModelType v)); cbn; [|reflexivity].
  destruct (String.eqb (amcSelectionModel v) "ErrorModel"); cbn; [reflexivity|].
  now destruct (String.eqb (amcSelectionModel v) "ShannonModel").
Qed.

Lemma configureChannel_halt v w :
  halt_of (configureChannel v w) =
    if negb (String.eqb (channelModel v) "ThreeGpp"
             || String.eqb (channelModel v) "NYU"
             || String.eqb (channelModel v) "TwoRay"
             || String.eqb (channelModel v) "Friis")
    then Some (NsFatalError ("Invalid channel model: " +:+ (channelModel v
                             +:+ ". Choose among 'ThreeGpp', 'NYU', 'TwoRay', 'Friis'.")))
    else None.
Proof.
  unfold configureChannel. autounfold with primitives. unfold bind, modify, abort, ret.
  destruct (String.eqb (channelModel v) "ThreeGpp"),
           (String.eqb (channelModel v) "NYU"),
           (String.eqb (channelModel v) "TwoRay"),
           (String.eqb (channelModel v) "Friis"); cbn; try reflexivity.
  all: now destruct (_ || _).
Qed.

(** A rejected channel model leaves the world as it was. *)
Lemma configureChannel_abort v w :
  halt_of (configureChannel v w) <> None -> world_of (configureChannel v w) = w.
Proof.
  unfold configureChannel. autounfold with primitives. unfold bind, modify, abort, ret.
  destruct (String.eqb (channelModel v) "ThreeGpp"),
           (String.eqb (channelModel v) "NYU"),
           (String.eqb (channelModel v) "TwoRay"),
           (String.eqb (channelModel v) "Friis"); cbn; try congruence.
  all: destruct (_ || _); cbn; congruence.
Qed.

Lemma untilChannel_halt lib v w :
  halt_of (untilChannel lib v w) =
    if negb (typeRegistered lib (errorModelType v))
    then Some (TypeIdNotFound (errorModelType v))
    else if negb (String.eqb (amcSelectionModel v) "ErrorModel"
                  || String.eqb (amcSelectionModel v) "ShannonModel")
    then Some (NsFatalError ("Invalid amcSelectionModel: " +:+ amcSelectionModel v))
    else None.
Proof.
  unfold untilChannel.
  rewrite halt_bind, (halt_total (enableLogging v)) by never_aborts.
  rewrite halt_bind, (halt_total (topology lib v)) by never_aborts.
  rewrite halt_bind, amcDefaults_halt.
  rewrite (halt_total (createHelpers v)) by never_aborts.
  now case_tests.
Qed.

Lemma untilGnbAmc_halt lib v w :
  halt_of (untilGnbAmc lib v w) = configurationError lib v.
Proof.
  unfold untilGnbAmc, configurationError.
  rewrite halt_bind, untilChannel_halt, halt_bind, configureChannel_halt.
  rewrite (halt_total (configureDevices v)) by never_aborts.
  now case_tests.
Qed.

Lemma afterGnbAmc_total lib v :
  total (configureGnbAmc v ;; installDevices lib ;; buildFabric ;; createTraffic ;;
         enableTraces)%sim.
Proof. never_aborts. Qed.

Lemma setup_halt lib v w : halt_of (setup lib v w) = configurationError lib v.
Proof.
  unfold setup. rewrite halt_bind, untilGnbAmc_halt.
  rewrite halt_total by apply afterGnbAmc_total. now destruct (configurationError lib v).
Qed.

(** [main] stops early exactly on a configuration error. *)
Lemma experiment_halt lib v w : halt_of (experiment lib v w) = configurationError lib v.
Proof.
  unfold experiment. rewrite halt_bind, setup_halt.
  rewrite (halt_total (runExperiment v)) by never_aborts.
  now destruct (configurationError lib v).
Qed.

(** The world in which it stops is the one reached before the channel
    model is configured. *)
Lemma abort_world lib v w :
  configurationError lib v <> None ->
  world_of (experiment lib v w) = world_of (untilChannel lib v w).
Proof.
  intros H. unfold experiment. rewrite world_bind, setup_halt.
  destruct (configurationError lib v) as [h|] eqn:E; [clear H|congruence].
  unfold setup. rewrite world_bind, untilGnbAmc_halt, E.
  unfold untilGnbAmc. rewrite world_bind.
  destruct (halt_of (untilChannel lib v w)) as [h'|] eqn:E1; [reflexivity|].
  rewrite world_bind.
  destruct (halt_of (configureChannel v (world_of (untilChannel lib v w)))) eqn:E2.
  - apply configureChannel_abort. congruence.
  - exfalso. pose proof (untilGnbAmc_halt lib v w) as U. unfold untilGnbAmc in U.
    rewrite halt_bind, E1, halt_bind, E2 in U.
    rewrite (halt_total (configureDevices v)) in U by never_aborts. congruence.
Qed.

Lemma untilChannel_emits lib v :
  emits (fun c => beforeProvisioning c = true) (untilChannel lib v).
Proof. journal_only. Qed.

Lemma untilChannel_devices lib v :
  preserves (fun w => (gNbNetDev w, ueNetDev w)) (untilChannel lib v).
Proof. frame. Qed.

Lemma untilChannel_typeIds lib v : preserves typeIds (untilChannel lib v).
Proof. frame. Qed.

Lemma untilChannel_beamforming lib v : preserves beamformingHelper (untilChannel lib v).
Proof. frame. Qed.

Lemma untilChannel_attribute lib v s name :
  s <> ConfigDefault -> preserves (fun w => attribute w s name) (untilChannel lib v).
Proof. intros Hs. frame. Qed.

(** * The claims *)

(** ** Terminal placement and mobility *)

(** C3.  With [ueNum = N] the scenario has exactly [N] terminals, and once
    the placement loop of lines 192-210 has run, terminal 0 stands at
    (10, 20, terminalHeight) and every terminal [i > 0] at
    (50 i, 30 if [i] is even else -30, terminalHeight), where
    terminalHeight is the height given to the hexagonal grid. *)
Theorem placement_override (lib : Library) (v : Locals) (w0 : World) (i : nat) :
  (i < N.to_nat (numUes v))%nat ->
  let o := bind (createScenario lib v) (fun _ => overridePlacement v) w0 in
  let terminalHeight := m_utHeight (hexGrid (world_of o)) in
  aborted o = false /\
  length (ueNodes (world_of o)) = N.to_nat (numUes v) /\
  position <$> ueNodes (world_of o) !! i =
    Some (if decide (i = 0)%nat
          then mkVector 10 20 terminalHeight
          else mkVector (inject_Z (50 * Z.of_nat i))
                        (if Nat.even i then 30 else -30)
                        terminalHeight).
Proof.
  intros Hi o terminalHeight. subst o terminalHeight.
  destruct (placed_run (fun _ : Call => @nil unit) ltac:(reflexivity) ltac:(reflexivity)
              lib v w0) as (w & J & E & L & Nodes & G & _).
  rewrite E. cbn [world_of aborted]. rewrite G, (Nodes i Hi). cbn [m_utHeight fmap option_fmap option_map position].
  rewrite placement_spec. auto.
Qed.

Lemma placement_override_witness :
  (3 < N.to_nat (numUes initialLocals))%nat /\
  let o := bind (createScenario exampleLibrary initialLocals)
                (fun _ => overridePlacement initialLocals) initialWorld in
  let terminalHeight := m_utHeight (hexGrid (world_of o)) in
  aborted o = false /\
  length (ueNodes (world_of o)) = N.to_nat (numUes initialLocals) /\
  position <$> ueNodes (world_of o) !! 3%nat =
    Some (if decide (3 = 0)%nat
          then mkVector 10 20 terminalHeight
          else mkVector (inject_Z (50 * Z.of_nat 3))
                        (if Nat.even 3 then 30 else -30)
                        terminalHeight).
Proof.
  assert (3 < N.to_nat (numUes initialLocals))%nat as H by (vm_compute; lia).
  exact (conj H (placement_override exampleLibrary initialLocals initialWorld 3 H)).
Defined.

(** C7.  Once the mobility loop of lines 212-219 has run, terminal [i]
    moves with velocity (speed, speed, 0) when [i] is even and
    (speed, -speed, 0) when [i] is odd, where speed = 1 + 3 i. *)
Theorem zigzag_velocity (lib : Library) (v : Locals) (w0 : World) (i : nat) :
  (i < N.to_nat (numUes v))%nat ->
  let o := topology lib v w0 in
  let speed := (1 + 3 * Z.of_nat i)%Z in
  aborted o = false /\
  velocity <$> ueNodes (world_of o) !! i =
    Some (if Nat.even i
          then mkVector (inject_Z speed) (inject_Z speed) 0
          else mkVector (inject_Z speed) (inject_Z (- speed)) 0).
Proof.
  intros Hi o speed. subst o speed.
  destruct (topology_run (fun _ : Call => @nil unit) ltac:(reflexivity) ltac:(reflexivity)
              lib v w0) as (w & J & E & L & Nodes & _).
  rewrite E. cbn [world_of aborted]. rewrite (Nodes i Hi). cbn [fmap option_fmap option_map velocity].
  rewrite zigzag_spec. split; [reflexivity|]. now destruct (Nat.even i).
Qed.

Lemma zigzag_velocity_witness :
  (3 < N.to_nat (numUes initialLocals))%nat /\
  let o := topology exampleLibrary initialLocals initialWorld in
  let speed := (1 + 3 * Z.of_nat 3)%Z in
  aborted o = false /\
  velocity <$> ueNodes (world_of o) !! 3%nat =
    Some (if Nat.even 3
          then mkVector (inject_Z speed) (inject_Z speed) 0
          else mkVector (inject_Z speed) (inject_Z (- speed)) 0).
Proof.
  assert (3 < N.to_nat (numUes initialLocals))%nat as H by (vm_compute; lia).
  exact (conj H (zigzag_velocity exampleLibrary initialLocals initialWorld 3 H)).
Defined.

(** The same two terminals, computed: terminal 3 of the default scenario. *)
Example terminal_3_of_default_scenario :
  ueNodes (world_of (topology exampleLibrary initialLocals initialWorld)) !! 3%nat
  = Some (mkMobility (mkVector 150 (-30) 1.5) (mkVector 10 (-10) 0)).
Proof. vm_compute. reflexivity. Qed.

(** ** Configuration errors *)

Lemma eqb_false_of_not_elem (s : string) (l : list string) (t : string) :
  s ∉ l -> t ∈ l -> String.eqb s t = false.
Proof. intros Hs Ht. apply String.eqb_neq. intros ->. contradiction. Qed.

Lemma configurationError_amc lib v :
  amcSelectionModel v ∉ ["ErrorModel"; "ShannonModel"] ->
  configurationError lib v =
    Some (if typeRegistered lib (errorModelType v)
          then NsFatalError ("Invalid amcSelectionModel: " +:+ amcSelectionModel v)
          else TypeIdNotFound (errorModelType v)).
Proof.
  intros H. unfold configurationError.
  rewrite !(eqb_false_of_not_elem _ _ _ H) by repeat constructor.
  now destruct (typeRegistered lib (errorModelType v)).
Qed.

Lemma configurationError_channel lib v :
  channelModel v ∉ ["ThreeGpp"; "NYU"; "TwoRay"; "Friis"] ->
  configurationError lib v <> None.
Proof.
  intros H. unfold configurationError.
  rewrite !(eqb_false_of_not_elem _ _ _ H) by repeat constructor.
  now case_tests.
Qed.

Lemma configurationError_channel_only lib v :
  typeRegistered lib (errorModelType v) = true ->
  amcSelectionModel v ∈ ["ErrorModel"; "ShannonModel"] ->
  channelModel v ∉ ["ThreeGpp"; "NYU"; "TwoRay"; "Friis"] ->
  configurationError lib v =
    Some (NsFatalError ("Invalid channel model: " +:+ (channelModel v
                        +:+ ". Choose among 'ThreeGpp', 'NYU', 'TwoRay', 'Friis'."))).
Proof.
  intros R A H. unfold configurationError.
  rewrite !(eqb_false_of_not_elem _ _ _ H) by repeat constructor. rewrite R.
  assert (String.eqb (amcSelectionModel v) "ErrorModel"
          || String.eqb (amcSelectionModel v) "ShannonModel" = true) as ->; [|reflexivity].
  apply orb_true_iff. rewrite !String.eqb_eq.
  revert A. rewrite !elem_of_cons, elem_of_nil. tauto.
Qed.

Lemma not_emitted (f : Call -> bool) (J : list Call) (c : Call) :
  Forall (fun c => f c = true) J -> f c = false -> c ∉ J.
Proof.
  intros HJ Hc Hin. rewrite Forall_forall in HJ. specialize (HJ c Hin). congruence.
Qed.

(** The run after a configuration error: the halt, and the world it
    leaves. *)
Lemma experiment_aborts lib v w0 :
  configurationError lib v <> None ->
  exists h w J,
    experiment lib v w0 = Abort h w /\
    configurationError lib v = Some h /\
    w = world_of (untilChannel lib v w0) /\
    journal w = (journal w0 ++ J)%list /\
    Forall (fun c => beforeProvisioning c = true) J.
Proof.
  intros H. destruct (configurationError lib v) as [h|] eqn:E; [clear H|congruence].
  destruct (untilChannel_emits lib v w0) as (J & HJ & HP).
  exists h, (world_of (untilChannel lib v w0)), J.
  split; [|auto].
  rewrite (outcome_eta (experiment lib v w0)), experiment_halt, E.
  now rewrite abort_world by congruence.
Qed.

(** C8.  When the error-model identifier does not resolve, or the AMC
    selection or the channel model is not a supported one, [main] aborts
    during setup: [Simulator::Run] is never called and no trace output
    has been switched on. *)
Theorem no_run_after_configuration_error (lib : Library) (v : Locals) (w0 : World) :
  typeRegistered lib (errorModelType v) = false
  \/ amcSelectionModel v ∉ ["ErrorModel"; "ShannonModel"]
  \/ channelModel v ∉ ["ThreeGpp"; "NYU"; "TwoRay"; "Friis"] ->
  exists h w J,
    experiment lib v w0 = Abort h w /\
    journal w = (journal w0 ++ J)%list /\
    (SimulatorRun ∉ J) /\
    (EnableDlDataPhyTraces ∉ J) /\ (EnableDlMacSchedTraces ∉ J) /\
    (EnableGnbMacCtrlMsgsTraces ∉ J) /\ (EnablePathlossTraces ∉ J).
Proof.
  intros H.
  assert (configurationError lib v <> None) as E.
  { destruct H as [H|[H|H]].
    - unfold configurationError. now rewrite H.
    - now rewrite configurationError_amc.
    - now apply configurationError_channel. }
  destruct (experiment_aborts lib v w0 E) as (h & w & J & Run & _ & _ & HJ & HP).
  exists h, w, J. split; [assumption|]. split; [assumption|].
  repeat split; now apply (not_emitted _ _ _ HP).
Qed.

Lemma no_run_after_configuration_error_witness :
  (typeRegistered exampleLibrary (errorModelType (set_channelModel "Rayleigh" initialLocals))
     = false
   \/ amcSelectionModel (set_channelModel "Rayleigh" initialLocals)
        ∉ ["ErrorModel"; "ShannonModel"]
   \/ channelModel (set_channelModel "Rayleigh" initialLocals)
        ∉ ["ThreeGpp"; "NYU"; "TwoRay"; "Friis"]) /\
  exists h w J,
    experiment exampleLibrary (set_channelModel "Rayleigh" initialLocals) initialWorld
      = Abort h w /\
    journal w = (journal initialWorld ++ J)%list /\
    (SimulatorRun ∉ J) /\
    (EnableDlDataPhyTraces ∉ J) /\ (EnableDlMacSchedTraces ∉ J) /\
    (EnableGnbMacCtrlMsgsTraces ∉ J) /\ (EnablePathlossTraces ∉ J).
Proof.
  assert (channelModel (set_channelModel "Rayleigh" initialLocals)
            ∉ ["ThreeGpp"; "NYU"; "TwoRay"; "Friis"]) as H.
  { apply (bool_decide_unpack _). vm_compute. exact I. }
  exact (conj (or_intror (or_intror H))
              (no_run_after_configuration_error exampleLibrary
                 (set_channelModel "Rayleigh" initialLocals) initialWorld
                 (or_intror (or_intror H)))).
Defined.

(** The run that the unsupported channel model cuts short, computed. *)
Example rayleigh_is_rejected :
  halt_of (experiment exampleLibrary (set_channelModel "Rayleigh" initialLocals)
                      initialWorld)
  = Some (NsFatalError
            "Invalid channel model: Rayleigh. Choose among 'ThreeGpp', 'NYU', 'TwoRay', 'Friis'.").
Proof. vm_compute. reflexivity. Qed.

Lemma untilChannel_amc_default lib v :
  amcSelectionModel v ∉ ["ErrorModel"; "ShannonModel"] ->
  preserves (fun w => attribute w ConfigDefault "ns3::NrAmc::AmcModel")
            (untilChannel lib v).
Proof.
  intros H. unfold untilChannel, amcDefaults.
  rewrite !(eqb_false_of_not_elem _ _ _ H) by repeat constructor. cbv iota.
  frame.
Qed.

(** C2.  A channel model outside ThreeGpp, NYU, TwoRay and Friis, or an
    AMC selection outside ErrorModel and ShannonModel, ends [main] in a
    fatal error that names the rejected value.  No model is put in its
    place: no antenna, propagation or beamforming setting and no AMC
    default has been written, no device has been installed and the
    simulator has not run. *)
Theorem unsupported_model_is_fatal (lib : Library) (v : Locals) (w0 : World) :
  amcSelectionModel v ∉ ["ErrorModel"; "ShannonModel"]
  \/ channelModel v ∉ ["ThreeGpp"; "NYU"; "TwoRay"; "Friis"] ->
  exists h w J,
    experiment lib v w0 = Abort h w /\
    (typeRegistered lib (errorModelType v) = true ->
     h = NsFatalError
           (if decide (amcSelectionModel v ∈ ["ErrorModel"; "ShannonModel"])
            then "Invalid channel model: " +:+ (channelModel v
                 +:+ ". Choose among 'ThreeGpp', 'NYU', 'TwoRay', 'Friis'.")
            else "Invalid amcSelectionModel: " +:+ amcSelectionModel v)) /\
    typeIds w = typeIds w0 /\
    beamformingHelper w = beamformingHelper w0 /\
    (forall s name, s <> ConfigDefault -> attribute w s name = attribute w0 s name) /\
    (amcSelectionModel v ∉ ["ErrorModel"; "ShannonModel"] ->
     attribute w ConfigDefault "ns3::NrAmc::AmcModel"
       = attribute w0 ConfigDefault "ns3::NrAmc::AmcModel") /\
    gNbNetDev w = gNbNetDev w0 /\ ueNetDev w = ueNetDev w0 /\
    journal w = (journal w0 ++ J)%list /\
    (forall n, InstallGnbDevice n ∉ J) /\ (forall n, InstallUeDevice n ∉ J) /\
    SimulatorRun ∉ J.
Proof.
  intros H.
  assert (configurationError lib v <> None) as E.
  { destruct H as [H|H].
    - now rewrite configurationError_amc.
    - now apply configurationError_channel. }
  destruct (experiment_aborts lib v w0 E) as (h & w & J & Run & Eh & -> & HJ & HP).
  exists h, (world_of (untilChannel lib v w0)), J.
  split; [assumption|]. split.
  { intros R. destruct (decide (amcSelectionModel v ∈ ["ErrorModel"; "ShannonModel"])) as [A|A].
    - destruct H as [H|H]; [contradiction|].
      rewrite (configurationError_channel_only lib v R A H) in Eh. congruence.
    - rewrite (configurationError_amc lib v A), R in Eh. congruence. }
  split; [apply untilChannel_typeIds|].
  split; [apply untilChannel_beamforming|].
  split; [intros s name Hs; now apply (untilChannel_attribute lib v s name)|].
  split; [intros A; now apply (untilChannel_amc_default lib v)|].
  pose proof (untilChannel_devices lib v w0) as D. cbn beta in D.
  split; [congruence|]. split; [congruence|]. split; [assumption|].
  repeat split; intros; now apply (not_emitted _ _ _ HP).
Qed.

Lemma unsupported_model_is_fatal_witness :
  (amcSelectionModel (set_amcSelectionModel "Fixed" initialLocals) ∉ ["ErrorModel"; "ShannonModel"]
  \/ channelModel (set_amcSelectionModel "Fixed" initialLocals) ∉ ["ThreeGpp"; "NYU"; "TwoRay"; "Friis"]) /\
  exists h w J,
    experiment exampleLibrary (set_amcSelectionModel "Fixed" initialLocals) initialWorld = Abort h w /\
    (typeRegistered exampleLibrary (errorModelType (set_amcSelectionModel "Fixed" initialLocals)) = true ->
     h = NsFatalError
           (if decide (amcSelectionModel (set_amcSelectionModel "Fixed" initialLocals) ∈ ["ErrorModel"; "ShannonModel"])
            then "Invalid channel model: " +:+ (channelModel (set_amcSelectionModel "Fixed" initialLocals)
                 +:+ ". Choose among 'ThreeGpp', 'NYU', 'TwoRay', 'Friis'.")
            else "Invalid amcSelectionModel: " +:+ amcSelectionModel (set_amcSelectionModel "Fixed" initialLocals))) /\
    typeIds w = typeIds initialWorld /\
    beamformingHelper w = beamformingHelper initialWorld /\
    (forall s name, s <> ConfigDefault -> attribute w s name = attribute initialWorld s name) /\
    (amcSelectionModel (set_amcSelectionModel "Fixed" initialLocals) ∉ ["ErrorModel"; "ShannonModel"] ->
     attribute w ConfigDefault "ns3::NrAmc::AmcModel"
       = attribute initialWorld ConfigDefault "ns3::NrAmc::AmcModel") /\
    gNbNetDev w = gNbNetDev initialWorld /\ ueNetDev w = ueNetDev initialWorld /\
    journal w = (journal initialWorld ++ J)%list /\
    (forall n, InstallGnbDevice n ∉ J) /\ (forall n, InstallUeDevice n ∉ J) /\
    SimulatorRun ∉ J.
Proof.
  assert (amcSelectionModel (set_amcSelectionModel "Fixed" initialLocals)
            ∉ ["ErrorModel"; "ShannonModel"]) as H.
  { apply (bool_decide_unpack _). vm_compute. exact I. }
  exact (conj (or_introl H)
              (unsupported_model_is_fatal exampleLibrary
                 (set_amcSelectionModel "Fixed" initialLocals) initialWorld
                 (or_introl H))).
Defined.

(** The run that the unsupported AMC selection cuts short, computed. *)
Example fixed_amc_is_rejected :
  halt_of (experiment exampleLibrary (set_amcSelectionModel "Fixed" initialLocals)
                      initialWorld)
  = Some (NsFatalError "Invalid amcSelectionModel: Fixed").
Proof. vm_compute. reflexivity. Qed.

(** ** The channel-model dispatch *)

Lemma phased_test v :
  channelModel v ∈ ["ThreeGpp"; "NYU"; "TwoRay"] ->
  String.eqb (channelModel v) "ThreeGpp" || String.eqb (channelModel v) "NYU"
  || String.eqb (channelModel v) "TwoRay" = true.
Proof.
  rewrite !orb_true_iff, !String.eqb_eq, !elem_of_cons, elem_of_nil. tauto.
Qed.

Lemma condition_test v :
  String.eqb (channelConditionModel v) "Default"
  || String.eqb (channelConditionModel v) "Buildings"
  = bool_decide (channelConditionModel v ∈ ["Default"; "Buildings"]).
Proof.
  destruct (bool_decide _) eqn:E.
  - apply bool_decide_eq_true in E. rewrite orb_true_iff, !String.eqb_eq.
    revert E. rewrite !elem_of_cons, elem_of_nil. tauto.
  - apply bool_decide_eq_false in E.
    now rewrite !(eqb_false_of_not_elem _ _ _ E) by repeat constructor.
Qed.

Lemma configureChannel_phased v w :
  channelModel v ∈ ["ThreeGpp"; "NYU"; "TwoRay"] ->
  exists w',
    configureChannel v w = Ret tt w' /\
    attribute w' UeAntenna "AntennaElement" = Some (PointerValue IsotropicAntennaModel) /\
    attribute w' GnbAntenna "AntennaElement" = Some (PointerValue IsotropicAntennaModel) /\
    attribute w' UeAntenna "NumRows" = Some (UintegerValue 1) /\
    attribute w' UeAntenna "NumColumns" = Some (UintegerValue 1) /\
    attribute w' GnbAntenna "NumRows" = Some (UintegerValue 4) /\
    attribute w' GnbAntenna "NumColumns" = Some (UintegerValue 8) /\
    beamformingHelper w' = true /\
    attribute w' IdealBeamforming "BeamformingMethod"
      = Some (TypeIdValue DirectPathBeamforming) /\
    attribute w' Pathloss "ShadowingEnabled" = Some (BooleanValue true) /\
    attribute w' ChannelConditionModel "UpdatePeriod"
      = (if bool_decide (channelConditionModel v ∈ ["Default"; "Buildings"])
         then Some (TimeValue (MilliSeconds 100))
         else attribute w ChannelConditionModel "UpdatePeriod") /\
    typeIds w' = typeIds w /\
    journal w' = (journal w ++ [CreateIdealBeamformingHelper; SetBeamformingHelper;
                                ConfigureFactories scenario (channelConditionModel v)
                                                   (channelModel v)])%list.
Proof.
  intros H. unfold configureChannel. rewrite (phased_test v H), condition_test.
  autounfold with primitives. unfold bind, modify, ret, attribute.
  destruct (bool_decide _); cbn; eexists; (split; [reflexivity|]); cbn.
  all: rewrite <- !app_assoc; cbn.
  all: repeat split; try reflexivity.
  all: now simplify_map_eq.
Qed.

Lemma configureChannel_friis v w :
  channelModel v = "Friis" ->
  exists w',
    configureChannel v w = Ret tt w' /\
    typeIds w' !! UeAntennaType = Some ParabolicAntennaModel /\
    typeIds w' !! GnbAntennaType = Some ParabolicAntennaModel /\
    typeIds w' !! PropagationLoss = Some FriisPropagationLossModel /\
    attributes w' = attributes w /\
    beamformingHelper w' = beamformingHelper w /\
    journal w' = journal w.
Proof.
  intros H. unfold configureChannel. rewrite H. cbn [String.eqb Ascii.eqb Bool.eqb orb].
  autounfold with primitives. unfold bind, modify.
  cbn. eexists. split; [reflexivity|]. cbn.
  repeat split; now simplify_map_eq.
Qed.

Lemma untilChannel_returns lib v w0 :
  typeRegistered lib (errorModelType v) = true ->
  amcSelectionModel v ∈ ["ErrorModel"; "ShannonModel"] ->
  untilChannel lib v w0 = Ret tt (world_of (untilChannel lib v w0)).
Proof.
  intros R A. rewrite (outcome_eta (untilChannel lib v w0)) at 1.
  rewrite untilChannel_halt, R.
  assert (String.eqb (amcSelectionModel v) "ErrorModel"
          || String.eqb (amcSelectionModel v) "ShannonModel" = true) as ->; [|reflexivity].
  rewrite orb_true_iff, !String.eqb_eq.
  revert A. rewrite !elem_of_cons, elem_of_nil. tauto.
Qed.

(** C1.  For ThreeGpp, NYU and TwoRay the channel-model step sets the
    phased-array bundle: isotropic antenna elements on both sides, a 1x1
    array at the terminals and a 4x8 array at the base stations,
    direct-path ideal beamforming, shadowing enabled.  For Friis it makes
    both antennas parabolic and the propagation-loss factory Friis, and
    writes no attribute at all: no array dimension, no beamforming. *)
Theorem channel_model_bundle (lib : Library) (v : Locals) (w0 : World) :
  typeRegistered lib (errorModelType v) = true ->
  amcSelectionModel v ∈ ["ErrorModel"; "ShannonModel"] ->
  let o := bind (untilChannel lib v) (fun _ => configureChannel v) w0 in
  let w := world_of o in
  (channelModel v ∈ ["ThreeGpp"; "NYU"; "TwoRay"] ->
   aborted o = false /\
   attribute w UeAntenna "AntennaElement" = Some (PointerValue IsotropicAntennaModel) /\
   attribute w GnbAntenna "AntennaElement" = Some (PointerValue IsotropicAntennaModel) /\
   attribute w UeAntenna "NumRows" = Some (UintegerValue 1) /\
   attribute w UeAntenna "NumColumns" = Some (UintegerValue 1) /\
   attribute w GnbAntenna "NumRows" = Some (UintegerValue 4) /\
   attribute w GnbAntenna "NumColumns" = Some (UintegerValue 8) /\
   beamformingHelper w = true /\
   attribute w IdealBeamforming "BeamformingMethod"
     = Some (TypeIdValue DirectPathBeamforming) /\
   attribute w Pathloss "ShadowingEnabled" = Some (BooleanValue true) /\
   typeIds w = typeIds w0)
  /\
  (channelModel v = "Friis" ->
   aborted o = false /\
   typeIds w !! UeAntennaType = Some ParabolicAntennaModel /\
   typeIds w !! GnbAntennaType = Some ParabolicAntennaModel /\
   typeIds w !! PropagationLoss = Some FriisPropagationLossModel /\
   (forall s name, s <> ConfigDefault -> attribute w s name = attribute w0 s name) /\
   beamformingHelper w = beamformingHelper w0).
Proof.
  intros R A o w. subst w o.
  rewrite (bind_Ret _ _ _ _ _ (untilChannel_returns lib v w0 R A)).
  split; intros H.
  - destruct (configureChannel_phased v (world_of (untilChannel lib v w0)) H)
      as (w & -> & ? & ? & ? & ? & ? & ? & ? & ? & ? & _ & T & _).
    cbn [world_of aborted]. rewrite T, untilChannel_typeIds. tauto.
  - destruct (configureChannel_friis v (world_of (untilChannel lib v w0)) H)
      as (w & -> & ? & ? & ? & Attr & B & _).
    cbn [world_of aborted]. rewrite B, untilChannel_beamforming.
    repeat split; try assumption.
    intros s name Hs. unfold attribute at 1. rewrite Attr.
    now apply (untilChannel_attribute lib v s name).
Qed.

Lemma channel_model_bundle_witness :
  (typeRegistered exampleLibrary (errorModelType (set_channelModel "Friis" initialLocals)) = true /\
   amcSelectionModel (set_channelModel "Friis" initialLocals) ∈ ["ErrorModel"; "ShannonModel"]) /\
  let o := bind (untilChannel exampleLibrary (set_channelModel "Friis" initialLocals)) (fun _ => configureChannel (set_channelModel "Friis" initialLocals)) initialWorld in
  let w := world_of o in
  (channelModel (set_channelModel "Friis" initialLocals) ∈ ["ThreeGpp"; "NYU"; "TwoRay"] ->
   aborted o = false /\
   attribute w UeAntenna "AntennaElement" = Some (PointerValue IsotropicAntennaModel) /\
   attribute w GnbAntenna "AntennaElement" = Some (PointerValue IsotropicAntennaModel) /\
   attribute w UeAntenna "NumRows" = Some (UintegerValue 1) /\
   attribute w UeAntenna "NumColumns" = Some (UintegerValue 1) /\
   attribute w GnbAntenna "NumRows" = Some (UintegerValue 4) /\
   attribute w GnbAntenna "NumColumns" = Some (UintegerValue 8) /\
   beamformingHelper w = true /\
   attribute w IdealBeamforming "BeamformingMethod"
     = Some (TypeIdValue DirectPathBeamforming) /\
   attribute w Pathloss "ShadowingEnabled" = Some (BooleanValue true) /\
   typeIds w = typeIds initialWorld)
  /\
  (channelModel (set_channelModel "Friis" initialLocals) = "Friis" ->
   aborted o = false /\
   typeIds w !! UeAntennaType = Some ParabolicAntennaModel /\
   typeIds w !! GnbAntennaType = Some ParabolicAntennaModel /\
   typeIds w !! PropagationLoss = Some FriisPropagationLossModel /\
   (forall s name, s <> ConfigDefault -> attribute w s name = attribute initialWorld s name) /\
   beamformingHelper w = beamformingHelper initialWorld).
Proof.
  assert (typeRegistered exampleLibrary (errorModelType (set_channelModel "Friis" initialLocals)) = true) as R
    by (vm_compute; reflexivity).
  assert (amcSelectionModel (set_channelModel "Friis" initialLocals) ∈ ["ErrorModel"; "ShannonModel"]) as A
    by (apply (bool_decide_unpack _); vm_compute; exact I).
  exact (conj (conj R A)
              (channel_model_bundle exampleLibrary (set_channelModel "Friis" initialLocals) initialWorld R A)).
Defined.

(** The two bundles, computed on the default run and on a Friis run. *)
Example default_run_has_phased_array :
  let w := world_of (setup exampleLibrary initialLocals initialWorld) in
  attribute w GnbAntenna "NumRows" = Some (UintegerValue 4) /\
  attribute w GnbAntenna "NumColumns" = Some (UintegerValue 8) /\
  typeIds w !! PropagationLoss = None.
Proof. vm_compute. auto. Qed.

Example friis_run_has_no_array :
  let w := world_of (setup exampleLibrary (set_channelModel "Friis" initialLocals) initialWorld) in
  attribute w GnbAntenna "NumRows" = None /\
  attribute w UeAntenna "NumRows" = None /\
  attribute w IdealBeamforming "BeamformingMethod" = None /\
  beamformingHelper w = false /\
  typeIds w !! PropagationLoss = Some FriisPropagationLossModel.
Proof. vm_compute. auto. Qed.

(** C4.  For ThreeGpp, NYU and TwoRay the update period of the channel
    condition is written, as 100 ms, exactly when the condition model is
    Default or Buildings; for LOS and NLOS (and any other name) the step
    does not write it, so that it stays as the library has it. *)
Theorem update_period (lib : Library) (v : Locals) (w0 : World) :
  typeRegistered lib (errorModelType v) = true ->
  amcSelectionModel v ∈ ["ErrorModel"; "ShannonModel"] ->
  channelModel v ∈ ["ThreeGpp"; "NYU"; "TwoRay"] ->
  let o := bind (untilChannel lib v) (fun _ => configureChannel v) w0 in
  let period := attribute (world_of o) ChannelConditionModel "UpdatePeriod" in
  aborted o = false /\
  (channelConditionModel v ∈ ["Default"; "Buildings"] ->
   period = Some (TimeValue (MilliSeconds 100))) /\
  (channelConditionModel v ∉ ["Default"; "Buildings"] ->
   period = attribute w0 ChannelConditionModel "UpdatePeriod") /\
  (attribute w0 ChannelConditionModel "UpdatePeriod" = None ->
   (period = Some (TimeValue (MilliSeconds 100))
    <-> channelConditionModel v ∈ ["Default"; "Buildings"])).
Proof.
  intros R A H o period. subst period o.
  rewrite (bind_Ret _ _ _ _ _ (untilChannel_returns lib v w0 R A)).
  destruct (configureChannel_phased v (world_of (untilChannel lib v w0)) H)
    as (w & -> & _ & _ & _ & _ & _ & _ & _ & _ & _ & P & _).
  cbn [world_of aborted]. rewrite P.
  rewrite (untilChannel_attribute lib v ChannelConditionModel "UpdatePeriod") by discriminate.
  split; [reflexivity|].
  destruct (bool_decide _) eqn:E.
  - apply bool_decide_eq_true in E. repeat split; intros; tauto.
  - apply bool_decide_eq_false in E. repeat split; intros; try tauto.
    congruence.
Qed.

Lemma update_period_witness :
  (typeRegistered exampleLibrary (errorModelType (set_channelConditionModel "LOS" initialLocals)) = true /\
   amcSelectionModel (set_channelConditionModel "LOS" initialLocals) ∈ ["ErrorModel"; "ShannonModel"] /\
   channelModel (set_channelConditionModel "LOS" initialLocals) ∈ ["ThreeGpp"; "NYU"; "TwoRay"]) /\
  let o := bind (untilChannel exampleLibrary (set_channelConditionModel "LOS" initialLocals)) (fun _ => configureChannel (set_channelConditionModel "LOS" initialLocals)) initialWorld in
  let period := attribute (world_of o) ChannelConditionModel "UpdatePeriod" in
  aborted o = false /\
  (channelConditionModel (set_channelConditionModel "LOS" initialLocals) ∈ ["Default"; "Buildings"] ->
   period = Some (TimeValue (MilliSeconds 100))) /\
  (channelConditionModel (set_channelConditionModel "LOS" initialLocals) ∉ ["Default"; "Buildings"] ->
   period = attribute initialWorld ChannelConditionModel "UpdatePeriod") /\
  (attribute initialWorld ChannelConditionModel "UpdatePeriod" = None ->
   (period = Some (TimeValue (MilliSeconds 100))
    <-> channelConditionModel (set_channelConditionModel "LOS" initialLocals) ∈ ["Default"; "Buildings"])).
Proof.
  assert (typeRegistered exampleLibrary (errorModelType (set_channelConditionModel "LOS" initialLocals)) = true) as R
    by (vm_compute; reflexivity).
  assert (amcSelectionModel (set_channelConditionModel "LOS" initialLocals) ∈ ["ErrorModel"; "ShannonModel"]) as A
    by (apply (bool_decide_unpack _); vm_compute; exact I).
  assert (channelModel (set_channelConditionModel "LOS" initialLocals) ∈ ["ThreeGpp"; "NYU"; "TwoRay"]) as H
    by (apply (bool_decide_unpack _); vm_compute; exact I).
  exact (conj (conj R (conj A H))
              (update_period exampleLibrary (set_channelConditionModel "LOS" initialLocals) initialWorld R A H)).
Defined.

(** The update period on a LOS run and on the default run, computed. *)
Example los_run_leaves_update_period_unset :
  attribute (world_of (setup exampleLibrary (set_channelConditionModel "LOS" initialLocals) initialWorld))
            ChannelConditionModel "UpdatePeriod" = None.
Proof. vm_compute. reflexivity. Qed.

Example default_run_sets_update_period :
  attribute (world_of (setup exampleLibrary initialLocals initialWorld))
            ChannelConditionModel "UpdatePeriod" = Some (TimeValue (MilliSeconds 100)).
Proof. vm_compute. reflexivity. Qed.

(** ** The AMC model *)

Lemma amc_test v :
  String.eqb (amcSelectionModel v) "ErrorModel"
  || String.eqb (amcSelectionModel v) "ShannonModel"
  = bool_decide (amcSelectionModel v ∈ ["ErrorModel"; "ShannonModel"]).
Proof.
  destruct (bool_decide _) eqn:E.
  - apply bool_decide_eq_true in E. rewrite orb_true_iff, !String.eqb_eq.
    revert E. rewrite !elem_of_cons, elem_of_nil. tauto.
  - apply bool_decide_eq_false in E.
    now rewrite !(eqb_false_of_not_elem _ _ _ E) by repeat constructor.
Qed.

(** The AMC model named by a supported selection string. *)
Lemma amcDefaults_sets lib v w :
  typeRegistered lib (errorModelType v) = true ->
  amcSelectionModel v ∈ ["ErrorModel"; "ShannonModel"] ->
  attribute (world_of (bind (amcDefaults lib v) (fun _ => createHelpers v) w))
            ConfigDefault "ns3::NrAmc::AmcModel"
  = Some (EnumValue (if String.eqb (amcSelectionModel v) "ErrorModel"
                     then ErrorModel else ShannonModel)).
Proof.
  intros R A. pose proof (amc_test v) as T. rewrite bool_decide_eq_true_2 in T by assumption.
  unfold amcDefaults, createHelpers. rewrite R.
  autounfold with primitives. unfold bind, modify, attribute.
  destruct (String.eqb (amcSelectionModel v) "ErrorModel"); cbn.
  - now simplify_map_eq.
  - cbn in T. rewrite T. cbn. now simplify_map_eq.
Qed.

Lemma untilGnbAmc_default lib v w0 :
  typeRegistered lib (errorModelType v) = true ->
  amcSelectionModel v ∈ ["ErrorModel"; "ShannonModel"] ->
  attribute (world_of (untilGnbAmc lib v w0)) ConfigDefault "ns3::NrAmc::AmcModel"
  = Some (EnumValue (if String.eqb (amcSelectionModel v) "ErrorModel"
                     then ErrorModel else ShannonModel)).
Proof.
  intros R A. unfold untilGnbAmc.
  rewrite world_bind, (outcome_eta (untilChannel lib v w0)) at 1.
  rewrite (untilChannel_returns lib v w0 R A). cbn [halt_of world_of].
  assert (preserves (fun w => attribute w ConfigDefault "ns3::NrAmc::AmcModel")
                    (configureChannel v ;; configureDevices v)%sim) as P by frame.
  rewrite (P (world_of (untilChannel lib v w0))).
  unfold untilChannel.
  rewrite world_bind, (halt_total (enableLogging v)) by never_aborts.
  rewrite world_bind, (halt_total (topology lib v)) by never_aborts.
  now apply amcDefaults_sets.
Qed.

Lemma untilGnbAmc_returns lib v w0 :
  configurationError lib v = None ->
  untilGnbAmc lib v w0 = Ret tt (world_of (untilGnbAmc lib v w0)).
Proof.
  intros E. rewrite (outcome_eta (untilGnbAmc lib v w0)) at 1.
  now rewrite untilGnbAmc_halt, E.
Qed.

(** C10.  When [main] reaches the AMC step of lines 319-329 the selection
    string is ErrorModel or ShannonModel: one of the two branches is
    taken, and the model it gives the base stations for downlink and
    uplink is the one set as global default at lines 229-240. *)
Theorem gnb_amc_matches_default (lib : Library) (v : Locals) (w0 w : World) :
  untilGnbAmc lib v w0 = Ret tt w ->
  amcSelectionModel v ∈ ["ErrorModel"; "ShannonModel"] /\
  exists m w',
    configureGnbAmc v w = Ret tt w' /\
    attribute w' GnbDlAmc "AmcModel" = Some (EnumValue m) /\
    attribute w' GnbUlAmc "AmcModel" = Some (EnumValue m) /\
    attribute w' ConfigDefault "ns3::NrAmc::AmcModel" = Some (EnumValue m) /\
    attribute w ConfigDefault "ns3::NrAmc::AmcModel" = Some (EnumValue m).
Proof.
  intros Run.
  pose proof (untilGnbAmc_halt lib v w0) as Hh. rewrite Run in Hh. cbn in Hh.
  unfold configurationError in Hh.
  destruct (typeRegistered lib (errorModelType v)) eqn:R; [|discriminate]. cbn in Hh.
  rewrite amc_test in Hh.
  destruct (bool_decide _) eqn:A; [|discriminate]. apply bool_decide_eq_true in A.
  split; [assumption|].
  pose proof (untilGnbAmc_default lib v w0 R A) as D. rewrite Run in D. cbn [world_of] in D.
  pose proof (amc_test v) as T. rewrite bool_decide_eq_true_2 in T by assumption.
  exists (if String.eqb (amcSelectionModel v) "ErrorModel" then ErrorModel else ShannonModel).
  unfold configureGnbAmc. autounfold with primitives. unfold bind, modify, ret.
  destruct (String.eqb (amcSelectionModel v) "ErrorModel"); cbn in *.
  - eexists. split; [reflexivity|]. unfold attribute in *. cbn.
    repeat split; now simplify_map_eq.
  - rewrite T. eexists. split; [reflexivity|]. unfold attribute in *. cbn.
    repeat split; now simplify_map_eq.
Qed.

Lemma gnb_amc_matches_default_witness :
  untilGnbAmc exampleLibrary (set_amcSelectionModel "ShannonModel" initialLocals) initialWorld
    = Ret tt (world_of (untilGnbAmc exampleLibrary (set_amcSelectionModel "ShannonModel" initialLocals) initialWorld)) /\
  amcSelectionModel (set_amcSelectionModel "ShannonModel" initialLocals) ∈ ["ErrorModel"; "ShannonModel"] /\
  exists m w',
    configureGnbAmc (set_amcSelectionModel "ShannonModel" initialLocals)
                    (world_of (untilGnbAmc exampleLibrary (set_amcSelectionModel "ShannonModel" initialLocals) initialWorld)) = Ret tt w' /\
    attribute w' GnbDlAmc "AmcModel" = Some (EnumValue m) /\
    attribute w' GnbUlAmc "AmcModel" = Some (EnumValue m) /\
    attribute w' ConfigDefault "ns3::NrAmc::AmcModel" = Some (EnumValue m) /\
    attribute (world_of (untilGnbAmc exampleLibrary (set_amcSelectionModel "ShannonModel" initialLocals) initialWorld))
              ConfigDefault "ns3::NrAmc::AmcModel" = Some (EnumValue m).
Proof.
  assert (untilGnbAmc exampleLibrary (set_amcSelectionModel "ShannonModel" initialLocals) initialWorld
          = Ret tt (world_of (untilGnbAmc exampleLibrary (set_amcSelectionModel "ShannonModel" initialLocals) initialWorld))) as H
    by (apply untilGnbAmc_returns; vm_compute; reflexivity).
  exact (conj H (gnb_amc_matches_default exampleLibrary (set_amcSelectionModel "ShannonModel" initialLocals) initialWorld
                   (world_of (untilGnbAmc exampleLibrary (set_amcSelectionModel "ShannonModel" initialLocals) initialWorld)) H)).
Defined.

(** The Shannon run, computed: default and per-device model agree. *)
Example shannon_run_amc :
  let w := world_of (setup exampleLibrary (set_amcSelectionModel "ShannonModel" initialLocals) initialWorld) in
  attribute w ConfigDefault "ns3::NrAmc::AmcModel" = Some (EnumValue ShannonModel) /\
  attribute w GnbDlAmc "AmcModel" = Some (EnumValue ShannonModel) /\
  attribute w GnbUlAmc "AmcModel" = Some (EnumValue ShannonModel).
Proof. vm_compute. auto. Qed.

(** ** How often the mobility of a terminal is written *)

Lemma emits_after {B} (P : Call -> Prop) (m : Sim unit) (k : unit -> Sim B) w :
  emits P (k tt) ->
  exists J, journal (world_of (bind m k w)) = (journal (world_of (m w)) ++ J)%list
            /\ Forall P J.
Proof.
  intros Hk. rewrite world_bind. destruct (halt_of (m w)).
  - exists []. now rewrite app_nil_r.
  - apply Hk.
Qed.

Lemma flat_map_only_at {X} (f : nat -> X) (i n : nat) :
  (i < n)%nat ->
  flat_map (fun k => if decide (k = i) then [f k] else []) (seq 0 n) = [f i].
Proof.
  induction n as [|n IH]; intros Hi; [lia|].
  rewrite seq_S, flat_map_app. cbn. destruct (decide (n = i)) as [->|Hne].
  - rewrite app_nil_r.
    assert (forall m, (m <= i)%nat ->
              flat_map (fun k => if decide (k = i) then [f k] else []) (seq 0 m) = [])
      as Below.
    { induction m as [|m IHm]; intros Hm; [reflexivity|].
      rewrite seq_S, flat_map_app, IHm by lia. cbn.
      destruct (decide (m = i)); [lia|reflexivity]. }
    now rewrite Below.
  - rewrite IH by lia. reflexivity.
Qed.

Section SetupHistory.
Context {X : Type} (h : Call -> list X).
Hypothesis h_quiet : forall c, mobilityCall c = false -> h c = [].

Lemma flat_map_quiet J :
  Forall (fun c => mobilityCall c = false) J -> flat_map h J = [].
Proof.
  induction 1 as [|c J Hc _ IH]; [reflexivity|].
  cbn. now rewrite (h_quiet c Hc), IH.
Qed.

(** What [h] sees of the calls of the whole setup: the creation, one
    [SetPosition] and one [SetVelocity] per terminal. *)
Lemma setup_history lib v w0 :
  exists J,
    journal (world_of (setup lib v w0)) = (journal w0 ++ J)%list /\
    flat_map h J =
      (h (CreateScenarioWithMobility (mkVector ueSpeed 0 0) 0)
       ++ flat_map (fun i => h (SetPosition i (placement i)))
                   (seq 0 (N.to_nat (numUes v)))
       ++ flat_map (fun i => h (SetVelocity i (zigzag i)))
                   (seq 0 (N.to_nat (numUes v))))%list.
Proof.
  set (P := fun c => mobilityCall c = false).
  assert (emits P (enableLogging v)) as E0 by journal_only.
  destruct (E0 w0) as (J0 & HJ0 & Q0).
  set (w1 := world_of (enableLogging v w0)) in *.
  destruct (topology_run h ltac:(intros; now apply h_quiet)
                           ltac:(intros; now apply h_quiet) lib v w1)
    as (w2 & Jt & Et & _ & _ & _ & HJt & Hh).
  destruct (emits_after P (topology lib v)
              (fun _ => amcDefaults lib v ;; createHelpers v)%sim w1
              ltac:(journal_only)) as (J1 & HJ1 & Q1).
  destruct (emits_after P (untilChannel lib v)
              (fun _ => configureChannel v ;; configureDevices v)%sim w0
              ltac:(journal_only)) as (J2 & HJ2 & Q2).
  destruct (emits_after P (untilGnbAmc lib v)
              (fun _ => configureGnbAmc v ;; installDevices lib ;; buildFabric ;;
                        createTraffic ;; enableTraces)%sim w0
              ltac:(journal_only)) as (J3 & HJ3 & Q3).
  assert (world_of (untilChannel lib v w0)
          = world_of (bind (topology lib v)
                           (fun _ => amcDefaults lib v ;; createHelpers v)%sim w1)) as U.
  { unfold untilChannel.
    now rewrite world_bind, (halt_total (enableLogging v)) by never_aborts. }
  exists (J0 ++ Jt ++ J1 ++ J2 ++ J3)%list. split.
  - change (setup lib v w0) with
      (bind (untilGnbAmc lib v)
            (fun _ => configureGnbAmc v ;; installDevices lib ;; buildFabric ;;
                      createTraffic ;; enableTraces)%sim w0).
    rewrite HJ3.
    change (untilGnbAmc lib v w0) with
      (bind (untilChannel lib v)
            (fun _ => configureChannel v ;; configureDevices v)%sim w0).
    rewrite HJ2, U, HJ1, Et. cbn [world_of]. rewrite HJt, HJ0.
    now rewrite <- !app_assoc.
  - rewrite !flat_map_app, Hh.
    rewrite !flat_map_quiet by assumption. now rewrite !app_nil_r.
Qed.

End SetupHistory.

(** C9, as the program has it.  Over the whole setup, the position of
    every terminal is written exactly once after its creation, by the
    placement loop.  Its velocity is given twice: the scenario is created
    with the velocity (30, 0, 0) for every terminal (line 185), and the
    mobility loop then writes the zigzag velocity, once. *)
Theorem mobility_writes (lib : Library) (v : Locals) (w0 : World) (i : nat) :
  (i < N.to_nat (numUes v))%nat ->
  exists J,
    journal (world_of (setup lib v w0)) = (journal w0 ++ J)%list /\
    positionMutations i J = [placement i] /\
    velocityAssignments i J = [mkVector 30 0 0; zigzag i].
Proof.
  intros Hi.
  destruct (setup_history (positionGiven i) ltac:(now intros []) lib v w0)
    as (J & HJ & Hp).
  destruct (setup_history (velocityGiven i) ltac:(now intros []) lib v w0)
    as (J' & HJ' & Hv).
  assert (J' = J) as -> by (rewrite HJ in HJ'; now apply app_inv_head in HJ').
  exists J. split; [assumption|]. unfold positionMutations, velocityAssignments.
  rewrite Hp, Hv. cbn [positionGiven velocityGiven].
  rewrite (flat_map_only_at (fun k => placement k) i _ Hi).
  rewrite (flat_map_only_at (fun k => zigzag k) i _ Hi).
  assert (forall n, flat_map (fun _ : nat => @nil Vector) (seq 0 n) = []) as Nil
    by (induction n; [reflexivity | now rewrite seq_S, flat_map_app, IHn]).
  rewrite !Nil. split; reflexivity.
Qed.

Lemma mobility_writes_witness :
  (0 < N.to_nat (numUes initialLocals))%nat /\
  exists J,
    journal (world_of (setup exampleLibrary initialLocals initialWorld))
      = (journal initialWorld ++ J)%list /\
    positionMutations 0 J = [placement 0] /\
    velocityAssignments 0 J = [mkVector 30 0 0; zigzag 0].
Proof.
  assert (0 < N.to_nat (numUes initialLocals))%nat as H by (vm_compute; lia).
  exact (conj H (mobility_writes exampleLibrary initialLocals initialWorld 0 H)).
Defined.

(** C9 as the specification words it fails: terminal 0 of the default
    scenario is given a velocity twice during setup. *)
Lemma velocity_assigned_twice :
  velocityAssignments 0
    (journal (world_of (setup exampleLibrary initialLocals initialWorld)))
    = [mkVector 30 0 0; mkVector 1 1 0]
  /\ length (velocityAssignments 0
               (journal (world_of (setup exampleLibrary initialLocals initialWorld))))
     <> 1%nat.
Proof. split; [vm_compute; reflexivity | vm_compute; discriminate]. Qed.

(** ** The command line *)

Lemma Parse_defaults lib cmd v : Parse lib cmd [] v = inl v.
Proof. reflexivity. Qed.

(** Each of the eight options registered before [Parse] stores into its
    variable. *)
Lemma registered_options_take_effect lib (value : string) (v : Locals) :
  let parse name := Parse lib (optionsAtParse lib) [(name, value)] v in
  let store {A} (parsed : option A) (set : A -> Locals -> Locals) :=
    match parsed with Some a => inl (set a v) | None => inr (Exit 1) end in
  parse "seed" = store (parseUint32 lib value) set_rngSeed /\
  parse "run" = store (parseUint32 lib value) set_rngRun /\
  parse "channelModel" = store (parseString lib value) set_channelModel /\
  parse "channelConditionModel" = store (parseString lib value) set_channelConditionModel /\
  parse "ueNum" = store (parseUint32 lib value) set_numUes /\
  parse "gNbNum" = store (parseUint32 lib value) set_numGnbs /\
  parse "frequency" = store (parseDouble lib value) set_centralFrequency /\
  parse "logging" = store (parseBool lib (logging v) value) set_logging.
Proof.
  cbn. unfold HandleArgument. cbn.
  unfold bindUint32, bindString, bindDouble, bindBool.
  repeat split;
    match goal with |- context [_ <$> ?p] => now destruct p end.
Qed.





(** C5, where the program departs from it: [--amcSelectionModel=ShannonModel]
    reaches [Parse] before the option is registered.  The argument is
    handed to the attribute system; when that rejects it the program
    exits with status 1, and otherwise it goes on with
    [amcSelectionModel] still at ErrorModel. *)
Theorem amcSelectionModel_flag_not_parsed (lib : Library) (w0 : World) :
  commandLine lib [("amcSelectionModel", "ShannonModel")] w0 =
    if handleAttribute lib "amcSelectionModel" "ShannonModel"
    then Ret initialLocals (world_of (reportParameters initialLocals w0))
    else Abort (Exit 1) w0.
Proof.
  unfold commandLine. cbn. unfold HandleArgument. cbn.
  now destruct (handleAttribute lib "amcSelectionModel" "ShannonModel").
Qed.

Example amcSelectionModel_flag_exits :
  halt_of (main exampleLibrary [("amcSelectionModel", "ShannonModel")] initialWorld)
  = Some (Exit 1).
Proof. vm_compute. reflexivity. Qed.

Example errorModelType_flag_exits :
  halt_of (main exampleLibrary [("errorModelType", "ns3::NrLteMiErrorModel")] initialWorld)
  = Some (Exit 1).
Proof. vm_compute. reflexivity. Qed.

Example ueNum_flag_takes_effect :
  length (ueNodes (world_of (main exampleLibrary [("ueNum", "7")] initialWorld))) = 7%nat.
Proof. vm_compute. reflexivity. Qed.

(** ** The run *)

(** Without a configuration error [main] reaches the event loop. *)
Lemma experiment_runs lib v w0 :
  configurationError lib v = None ->
  exists w, experiment lib v w0 = Ret tt w /\ SimulatorRun ∈ journal w.
Proof.
  intros E. exists (world_of (experiment lib v w0)). split.
  - rewrite (outcome_eta (experiment lib v w0)) at 1. now rewrite experiment_halt, E.
  - unfold experiment. rewrite world_bind, setup_halt, E.
    unfold runExperiment. autounfold with primitives. unfold bind, modify. cbn.
    set_solver.
Qed.

(** The random streams are handed out to the base-station devices first
    and to the terminal devices next, from the offset the base stations
    left. *)
Lemma installDevices_streams lib w :
  exists w' usedGnb usedUe,
    installDevices lib w = Ret tt w' /\
    journal w' =
      (journal w ++ [InstallGnbDevice (gNbNodes w); InstallUeDevice (length (ueNodes w));
                     AssignStreams GnbDevices (randomStream w);
                     AssignStreams UeDevices (randomStream w + usedGnb)%Z;
                     Printf "NetDevices installed and streams assigned\n" []])%list /\
    randomStream w' = (randomStream w + usedGnb + usedUe)%Z /\
    gNbNetDev w' = Some (gNbNodes w) /\ ueNetDev w' = Some (length (ueNodes w)).
Proof.
  do 3 eexists. split; [reflexivity|]. cbn.
  rewrite <- !app_assoc. cbn. repeat split; reflexivity.
Qed.

(** * Further properties of the program *)

(** ** Provisioning, fabric, traffic and traces *)

Lemma forEach_calls (c : nat -> Call) (l : list nat) (w : World) :
  forEach l (fun i => call (c i)) w
  = Ret tt (with_journal (journal w ++ List.map c l)%list w).
Proof.
  revert w. induction l as [|i l IH]; intros w; cbn [forEach List.map].
  - unfold ret. rewrite app_nil_r. now destruct w.
  - unfold bind, call at 1, modify. rewrite IH. cbn.
    now rewrite <- app_assoc.
Qed.

Lemma configureGnbAmc_run v w :
  exists w',
    configureGnbAmc v w = Ret tt w' /\
    journal w' = journal w /\ ueNodes w' = ueNodes w /\ gNbNodes w' = gNbNodes w /\
    randomStream w' = randomStream w.
Proof.
  unfold configureGnbAmc. autounfold with primitives. unfold bind, modify, ret.
  destruct (String.eqb (amcSelectionModel v) "ErrorModel");
    [|destruct (String.eqb (amcSelectionModel v) "ShannonModel")];
    cbn; eexists; (split; [reflexivity|]); cbn; auto.
Qed.

Lemma buildFabric_run w :
  exists w',
    buildFabric w = Ret tt w' /\
    journal w' =
      (journal w ++ [GetPgwNode; CreateRemoteHost; InternetInstallRemoteHost;
                     Printf "Internet stack installed on remote host\n" [];
                     P2pInstall; Ipv4SetBase "1.0.0.0" "255.0.0.0"; Ipv4Assign;
                     AddNetworkRouteTo "7.0.0.0" "255.0.0.0" 1; InternetInstallUes;
                     AssignUeIpv4Address;
                     Printf "IPv4 addresses assigned to UEs\n" []])%list /\
    ueNodes w' = ueNodes w /\ gNbNetDev w' = gNbNetDev w /\ ueNetDev w' = ueNetDev w /\
    randomStream w' = randomStream w.
Proof.
  eexists. split; [reflexivity|]. cbn. rewrite <- !app_assoc. cbn. auto.
Qed.

Lemma createTraffic_run w :
  exists w',
    createTraffic w = Ret tt w' /\
    journal w' =
      (journal w
       ++ List.map (fun i => TrafficGeneratorInstall i dlPort TrafficGeneratorNgmnGaming)
                   (seq 0 (length (ueNodes w)))
       ++ [AttachToClosestGnb; ServerAppsStart udpTime; ClientAppsStart udpTime;
           ServerAppsStop simTime; ClientAppsStop simTime;
           Printf "Gaming applications started\n" []])%list /\
    ueNodes w' = ueNodes w /\ gNbNetDev w' = gNbNetDev w /\ ueNetDev w' = ueNetDev w /\
    randomStream w' = randomStream w.
Proof.
  unfold createTraffic, GetN. unfold bind at 1 2. unfold gets at 1.
  rewrite forEach_calls. eexists. split; [reflexivity|]. cbn.
  rewrite <- !app_assoc. cbn. auto.
Qed.

Lemma enableTraces_run w :
  exists w',
    enableTraces w = Ret tt w' /\
    journal w' =
      (journal w ++ [EnableDlDataPhyTraces; EnableDlMacSchedTraces;
                     EnableGnbMacCtrlMsgsTraces; EnablePathlossTraces])%list /\
    ueNodes w' = ueNodes w /\ gNbNetDev w' = gNbNetDev w /\ ueNetDev w' = ueNetDev w /\
    randomStream w' = randomStream w.
Proof.
  eexists. split; [reflexivity|]. cbn. rewrite <- !app_assoc. cbn. auto.
Qed.

Lemma runExperiment_run v w :
  exists w',
    runExperiment v w = Ret tt w' /\
    journal w' =
      (journal w ++ [SimulatorStop simTime; SetSeed (rngSeed v); SetRun (rngRun v);
                     SimulatorRun; ReportRuntime; SimulatorDestroy;
                     Printf "Simulation completed\n" []])%list /\
    ueNodes w' = ueNodes w /\ gNbNetDev w' = gNbNetDev w /\ ueNetDev w' = ueNetDev w /\
    randomStream w' = randomStream w.
Proof.
  eexists. split; [reflexivity|]. cbn. rewrite <- !app_assoc. cbn. auto.
Qed.

Lemma provisioning_run lib v w :
  exists w' usedGnb usedUe,
    bind (configureGnbAmc v ;; installDevices lib ;; buildFabric ;; createTraffic ;;
          enableTraces)%sim (fun _ => runExperiment v) w = Ret tt w' /\
    journal w' =
      (journal w ++ provisioningCalls v (gNbNodes w) (length (ueNodes w))
                                      (randomStream w) usedGnb)%list /\
    ueNodes w' = ueNodes w /\
    gNbNetDev w' = Some (gNbNodes w) /\ ueNetDev w' = Some (length (ueNodes w)) /\
    randomStream w' = (randomStream w + usedGnb + usedUe)%Z.
Proof.
  destruct (configureGnbAmc_run v w) as (w1 & E1 & J1 & N1 & G1 & S1).
  destruct (installDevices_streams lib w1) as (w2 & k1 & k2 & E2 & J2 & S2 & D2 & U2).
  assert (ueNodes w2 = ueNodes w1) as N2.
  { assert (preserves ueNodes (installDevices lib)) as P by frame.
    specialize (P w1). now rewrite E2 in P. }
  destruct (buildFabric_run w2) as (w3 & E3 & J3 & N3 & D3 & U3 & S3).
  destruct (createTraffic_run w3) as (w4 & E4 & J4 & N4 & D4 & U4 & S4).
  destruct (enableTraces_run w4) as (w5 & E5 & J5 & N5 & D5 & U5 & S5).
  destruct (runExperiment_run v w5) as (w6 & E6 & J6 & N6 & D6 & U6 & S6).
  exists w6, k1, k2. split.
  { unfold bind. now rewrite E1, E2, E3, E4, E5. }
  split.
  { rewrite J6, J5, J4, J3, J2, J1, N3, N2, N1, G1, S1. unfold provisioningCalls.
    rewrite <- !app_assoc. reflexivity. }
  split; [congruence|]. split; [congruence|]. split; [congruence|]. congruence.
Qed.

(** ** A run without configuration error *)

Lemma preserves_after {A B} (f : World -> A) (m : Sim unit) (k : unit -> Sim B) w :
  preserves f (k tt) -> f (world_of (bind m k w)) = f (world_of (m w)).
Proof.
  intros Hk. rewrite world_bind. destruct (halt_of (m w)); [reflexivity|apply Hk].
Qed.

(** What the stages between the topology and the device installation leave
    alone. *)
Lemma untilGnbAmc_topology {A} (f : World -> A) lib v w0 :
  preserves f (amcDefaults lib v ;; createHelpers v)%sim ->
  preserves f (configureChannel v ;; configureDevices v)%sim ->
  f (world_of (untilGnbAmc lib v w0))
  = f (world_of (topology lib v (world_of (enableLogging v w0)))).
Proof.
  intros P1 P2. unfold untilGnbAmc. rewrite (preserves_after f) by assumption.
  unfold untilChannel.
  rewrite world_bind, (halt_total (enableLogging v)) by never_aborts.
  now rewrite (preserves_after f) by assumption.
Qed.

Lemma topology_gNbNodes lib v w :
  gNbNodes (world_of (topology lib v w)) = N.to_nat (numGnbs v).
Proof.
  unfold topology.
  rewrite (preserves_after gNbNodes) by frame.
  reflexivity.
Qed.

Lemma topology_randomStream lib v : preserves randomStream (topology lib v).
Proof. frame. Qed.

Lemma untilGnbAmc_emits lib v :
  emits (fun c => configurationCall c = true) (untilGnbAmc lib v).
Proof. journal_only. Qed.

(** The terminals as the topology stage leaves them. *)
Lemma topology_nodes lib v w :
  ueNodes (world_of (topology lib v w))
  = (fun i => mkMobility (placement i) (zigzag i)) <$> seq 0 (N.to_nat (numUes v)).
Proof.
  destruct (topology_run (fun _ : Call => @nil unit) ltac:(reflexivity) ltac:(reflexivity)
              lib v w) as (w' & J & E & L & Nodes & _).
  rewrite E. cbn [world_of]. apply list_eq. intros j.
  rewrite list_lookup_fmap.
  destruct (decide (j < N.to_nat (numUes v))%nat) as [Hj|Hj].
  - now rewrite (Nodes j Hj), lookup_seq_lt.
  - rewrite !lookup_ge_None_2; [reflexivity| |]; rewrite ?length_seq; lia.
Qed.

Lemma completed_run_calls (lib : Library) (v : Locals) (w0 : World) :
  configurationError lib v = None ->
  exists w J usedGnb usedUe,
    experiment lib v w0 = Ret tt w /\
    journal w =
      (journal w0 ++ J
       ++ provisioningCalls v (N.to_nat (numGnbs v)) (N.to_nat (numUes v))
                            (randomStream w0) usedGnb)%list /\
    Forall (fun c => configurationCall c = true) J /\
    gNbNetDev w = Some (N.to_nat (numGnbs v)) /\
    ueNetDev w = Some (N.to_nat (numUes v)) /\
    randomStream w = (randomStream w0 + usedGnb + usedUe)%Z /\
    ueNodes w = ((fun i => mkMobility (placement i) (zigzag i))
                   <$> seq 0 (N.to_nat (numUes v))).
Proof.
  intros E.
  pose proof (untilGnbAmc_returns lib v w0 E) as R0.
  set (w1 := world_of (untilGnbAmc lib v w0)) in *.
  assert (ueNodes w1 = (fun i => mkMobility (placement i) (zigzag i))
                         <$> seq 0 (N.to_nat (numUes v))) as N1.
  { unfold w1. rewrite (untilGnbAmc_topology ueNodes) by frame. apply topology_nodes. }
  assert (gNbNodes w1 = N.to_nat (numGnbs v)) as G1.
  { unfold w1. rewrite (untilGnbAmc_topology gNbNodes) by frame. apply topology_gNbNodes. }
  assert (randomStream w1 = randomStream w0) as S1.
  { unfold w1. rewrite (untilGnbAmc_topology randomStream) by frame.
    rewrite topology_randomStream.
    assert (preserves randomStream (enableLogging v)) as P by frame. apply P. }
  destruct (untilGnbAmc_emits lib v w0) as (J & HJ & Q). fold w1 in HJ.
  destruct (provisioning_run lib v w1) as (w & k1 & k2 & Run & Jw & Nw & Dw & Uw & Sw).
  exists w, J, k1, k2. split.
  { unfold experiment, setup. unfold bind at 1 2. rewrite R0.
    revert Run. unfold bind at 1. intros Run. exact Run. }
  rewrite Jw, HJ, G1, N1, S1, length_fmap, length_seq, <- app_assoc in *.
  repeat split; congruence.
Qed.



Lemma filter_configuration (p : Call -> bool) (J : list Call) :
  (forall c, configurationCall c = true -> p c = false) ->
  Forall (fun c => configurationCall c = true) J ->
  List.filter p J = [].
Proof.
  intros Hp. induction 1 as [|c J Hc _ IH]; [reflexivity|].
  cbn. now rewrite (Hp c Hc).
Qed.

Lemma filter_generators (p : Call -> bool) (f : nat -> Call) (l : list nat) (b : bool) :
  (forall i, p (f i) = b) ->
  List.filter p (List.map f l) = if b then List.map f l else [].
Proof.
  intros Hp. induction l as [|i l IH]; cbn; [now destruct b|].
  rewrite Hp, IH. now destruct b.
Qed.



(** X3.  One traffic generator per terminal, in index order, all of the NGMN
    gaming type and towards port 1234; none for a run without
    terminals. *)
Theorem one_generator_per_terminal (lib : Library) (v : Locals) (w0 : World) :
  configurationError lib v = None ->
  exists w J,
    experiment lib v w0 = Ret tt w /\
    journal w = (journal w0 ++ J)%list /\
    List.filter isGenerator J =
      List.map (fun i => TrafficGeneratorInstall i 1234 TrafficGeneratorNgmnGaming)
               (seq 0 (N.to_nat (numUes v))).
Proof.
  intros E.
  destruct (completed_run_calls lib v w0 E) as (w & J & k1 & k2 & Run & HJ & Q & _).
  exists w, (J ++ provisioningCalls v (N.to_nat (numGnbs v)) (N.to_nat (numUes v))
                                    (randomStream w0) k1)%list.
  split; [assumption|]. split; [assumption|].
  rewrite List.filter_app, (filter_configuration isGenerator J) by
    (assumption || (intros []; cbn; congruence)).
  unfold provisioningCalls. rewrite !List.filter_app.
  rewrite (filter_generators isGenerator _ _ true) by reflexivity.
  cbn. now rewrite app_nil_r.
Qed.

Lemma one_generator_per_terminal_witness :
  configurationError exampleLibrary initialLocals = None /\
  exists w J,
    experiment exampleLibrary initialLocals initialWorld = Ret tt w /\
    journal w = (journal initialWorld ++ J)%list /\
    List.filter isGenerator J =
      List.map (fun i => TrafficGeneratorInstall i 1234 TrafficGeneratorNgmnGaming)
               (seq 0 (N.to_nat (numUes initialLocals))).
Proof.
  assert (configurationError exampleLibrary initialLocals = None) as H
    by (vm_compute; reflexivity).
  exact (conj H (one_generator_per_terminal exampleLibrary initialLocals initialWorld H)).
Defined.



(** ** What a completed run has configured *)

Lemma configurationError_None lib v :
  configurationError lib v = None <->
  typeRegistered lib (errorModelType v) = true /\
  amcSelectionModel v ∈ ["ErrorModel"; "ShannonModel"] /\
  channelModel v ∈ ["ThreeGpp"; "NYU"; "TwoRay"; "Friis"].
Proof.
  unfold configurationError.
  rewrite !elem_of_cons, !elem_of_nil, <- !String.eqb_eq.
  destruct (typeRegistered lib (errorModelType v)),
           (String.eqb (amcSelectionModel v) "ErrorModel"),
           (String.eqb (amcSelectionModel v) "ShannonModel"),
           (String.eqb (channelModel v) "ThreeGpp"),
           (String.eqb (channelModel v) "NYU"),
           (String.eqb (channelModel v) "TwoRay"),
           (String.eqb (channelModel v) "Friis"); cbn; split; intros; try tauto;
    try discriminate; intuition discriminate.
Qed.

(** The world a run without configuration error is in after the dispatch
    on the channel model, and the frame around it. *)
Lemma experiment_after_channel {A} (f : World -> A) lib v w0 :
  configurationError lib v = None ->
  preserves f (configureDevices v) ->
  preserves f (configureGnbAmc v ;; installDevices lib ;; buildFabric ;; createTraffic ;;
               enableTraces)%sim ->
  preserves f (runExperiment v) ->
  exists wc,
    configureChannel v (world_of (untilChannel lib v w0)) = Ret tt wc /\
    f (world_of (experiment lib v w0)) = f wc.
Proof.
  intros E P1 P2 P3.
  apply configurationError_None in E as (R & Am & C).
  pose proof (configureChannel_halt v (world_of (untilChannel lib v w0))) as H.
  assert (String.eqb (channelModel v) "ThreeGpp" || String.eqb (channelModel v) "NYU"
          || String.eqb (channelModel v) "TwoRay" || String.eqb (channelModel v) "Friis"
          = true) as T.
  { rewrite !orb_true_iff, !String.eqb_eq. revert C.
    rewrite !elem_of_cons, elem_of_nil. tauto. }
  rewrite T in H. cbn in H.
  exists (world_of (configureChannel v (world_of (untilChannel lib v w0)))). split.
  { rewrite (outcome_eta (configureChannel v _)) at 1. now rewrite H. }
  unfold experiment. rewrite (preserves_after f) by assumption.
  unfold setup. rewrite (preserves_after f) by assumption.
  unfold untilGnbAmc. rewrite world_bind, untilChannel_halt, R.
  assert (String.eqb (amcSelectionModel v) "ErrorModel"
          || String.eqb (amcSelectionModel v) "ShannonModel" = true) as ->.
  { rewrite orb_true_iff, !String.eqb_eq. revert Am.
    rewrite !elem_of_cons, elem_of_nil. tauto. }
  cbn [negb]. now rewrite (preserves_after f) by assumption.
Qed.

(** X5.  The antenna always matches the propagation model: a completed run
    started with nothing configured ends either with parabolic antennas,
    the Friis factory and no beamforming, or with isotropic elements in
    arrays, ideal beamforming and no type override. *)
Theorem antenna_matches_propagation (lib : Library) (v : Locals) (w0 : World) :
  attributes w0 = ∅ -> typeIds w0 = ∅ -> beamformingHelper w0 = false ->
  configurationError lib v = None ->
  let w := world_of (experiment lib v w0) in
  (channelModel v = "Friis" /\
   typeIds w !! UeAntennaType = Some ParabolicAntennaModel /\
   typeIds w !! GnbAntennaType = Some ParabolicAntennaModel /\
   typeIds w !! PropagationLoss = Some FriisPropagationLossModel /\
   beamformingHelper w = false /\
   attribute w UeAntenna "AntennaElement" = None /\
   attribute w GnbAntenna "AntennaElement" = None /\
   attribute w UeAntenna "NumRows" = None /\
   attribute w GnbAntenna "NumRows" = None)
  \/
  (channelModel v ∈ ["ThreeGpp"; "NYU"; "TwoRay"] /\
   typeIds w !! UeAntennaType = None /\
   typeIds w !! GnbAntennaType = None /\
   typeIds w !! PropagationLoss = None /\
   beamformingHelper w = true /\
   attribute w UeAntenna "AntennaElement" = Some (PointerValue IsotropicAntennaModel) /\
   attribute w GnbAntenna "AntennaElement" = Some (PointerValue IsotropicAntennaModel) /\
   attribute w UeAntenna "NumRows" = Some (UintegerValue 1) /\
   attribute w GnbAntenna "NumRows" = Some (UintegerValue 4)).
Proof.
  intros A0 T0 B0 E w. subst w.
  set (obs := fun w : World =>
    (typeIds w !! UeAntennaType, typeIds w !! GnbAntennaType, typeIds w !! PropagationLoss,
     beamformingHelper w,
     attribute w UeAntenna "AntennaElement", attribute w GnbAntenna "AntennaElement",
     attribute w UeAntenna "NumRows", attribute w GnbAntenna "NumRows")).
  destruct (experiment_after_channel obs lib v w0 E ltac:(unfold obs; frame)
              ltac:(unfold obs; frame) ltac:(unfold obs; frame))
    as (wc & Run & Obs).
  injection Obs as -> -> -> -> -> -> -> ->.
  set (w1 := world_of (untilChannel lib v w0)) in *.
  assert (typeIds w1 = ∅) as T1 by (unfold w1; now rewrite untilChannel_typeIds).
  assert (beamformingHelper w1 = false) as B1
    by (unfold w1; now rewrite untilChannel_beamforming).
  assert (forall s name, s <> ConfigDefault -> attribute w1 s name = None) as A1.
  { intros s name Hs. unfold w1.
    rewrite (untilChannel_attribute lib v s name Hs w0). unfold attribute.
    now rewrite A0. }
  apply configurationError_None in E as (_ & _ & C).
  rewrite !elem_of_cons, elem_of_nil in C.
  destruct C as [C|[C|[C|[C|[]]]]].
  4: { left. destruct (configureChannel_friis v w1 C) as (w' & Run' & ? & ? & ? & At & Bf & _).
       rewrite Run in Run'. injection Run' as <-.
       unfold attribute. rewrite At, Bf. fold (attribute w1 UeAntenna "AntennaElement").
       repeat split; try assumption; now apply A1. }
  all: right.
  all: assert (channelModel v ∈ ["ThreeGpp"; "NYU"; "TwoRay"]) as P
         by (rewrite C; repeat constructor).
  all: destruct (configureChannel_phased v w1 P)
         as (w' & Run' & ? & ? & ? & ? & ? & ? & ? & ? & ? & ? & Ty & _).
  all: rewrite Run in Run'; injection Run' as <-.
  all: rewrite Ty, T1, !lookup_empty.
  all: repeat split; assumption.
Qed.

Lemma antenna_matches_propagation_witness :
  (attributes initialWorld = ∅ /\ typeIds initialWorld = ∅ /\
   beamformingHelper initialWorld = false /\
   configurationError exampleLibrary initialLocals = None) /\
  let w := world_of (experiment exampleLibrary initialLocals initialWorld) in
  (channelModel initialLocals = "Friis" /\
   typeIds w !! UeAntennaType = Some ParabolicAntennaModel /\
   typeIds w !! GnbAntennaType = Some ParabolicAntennaModel /\
   typeIds w !! PropagationLoss = Some FriisPropagationLossModel /\
   beamformingHelper w = false /\
   attribute w UeAntenna "AntennaElement" = None /\
   attribute w GnbAntenna "AntennaElement" = None /\
   attribute w UeAntenna "NumRows" = None /\
   attribute w GnbAntenna "NumRows" = None)
  \/
  (channelModel initialLocals ∈ ["ThreeGpp"; "NYU"; "TwoRay"] /\
   typeIds w !! UeAntennaType = None /\
   typeIds w !! GnbAntennaType = None /\
   typeIds w !! PropagationLoss = None /\
   beamformingHelper w = true /\
   attribute w UeAntenna "AntennaElement" = Some (PointerValue IsotropicAntennaModel) /\
   attribute w GnbAntenna "AntennaElement" = Some (PointerValue IsotropicAntennaModel) /\
   attribute w UeAntenna "NumRows" = Some (UintegerValue 1) /\
   attribute w GnbAntenna "NumRows" = Some (UintegerValue 4)).
Proof.
  assert (configurationError exampleLibrary initialLocals = None) as H
    by (vm_compute; reflexivity).
  exact (conj (conj eq_refl (conj eq_refl (conj eq_refl H)))
              (antenna_matches_propagation exampleLibrary initialLocals initialWorld
                 eq_refl eq_refl eq_refl H)).
Defined.

Lemma amcDefaults_errorModel lib v w :
  typeRegistered lib (errorModelType v) = true ->
  amcSelectionModel v ∈ ["ErrorModel"; "ShannonModel"] ->
  attribute (world_of (bind (amcDefaults lib v) (fun _ => createHelpers v) w))
            ConfigDefault "ns3::NrAmc::ErrorModelType"
  = Some (TypeIdValue (LookupByName (errorModelType v))).
Proof.
  intros R Am. pose proof (amc_test v) as T.
  rewrite bool_decide_eq_true_2 in T by assumption.
  unfold amcDefaults, createHelpers. rewrite R.
  autounfold with primitives. unfold bind, modify, attribute.
  destruct (String.eqb (amcSelectionModel v) "ErrorModel"); cbn.
  - now simplify_map_eq.
  - cbn in T. rewrite T. cbn. now simplify_map_eq.
Qed.

(** X6.  The error model is the same everywhere: a completed run has the
    type named by [errorModelType] as uplink error model, as downlink
    error model and as the default of the AMC, and the scheduler is not
    on a fixed MCS in either direction. *)
Theorem one_error_model (lib : Library) (v : Locals) (w0 : World) :
  configurationError lib v = None ->
  let w := world_of (experiment lib v w0) in
  typeIds w !! UlErrorModel = Some (LookupByName (errorModelType v)) /\
  typeIds w !! DlErrorModel = Some (LookupByName (errorModelType v)) /\
  attribute w ConfigDefault "ns3::NrAmc::ErrorModelType"
    = Some (TypeIdValue (LookupByName (errorModelType v))) /\
  attribute w Scheduler "FixedMcsDl" = Some (BooleanValue false) /\
  attribute w Scheduler "FixedMcsUl" = Some (BooleanValue false).
Proof.
  intros E w. subst w.
  set (obs := fun w : World =>
    (typeIds w !! UlErrorModel, typeIds w !! DlErrorModel,
     attribute w ConfigDefault "ns3::NrAmc::ErrorModelType",
     attribute w Scheduler "FixedMcsDl", attribute w Scheduler "FixedMcsUl")).
  assert (obs (world_of (experiment lib v w0)) = obs (world_of (untilGnbAmc lib v w0))) as O.
  { unfold experiment. rewrite (preserves_after obs) by (unfold obs; frame).
    unfold setup. now rewrite (preserves_after obs) by (unfold obs; frame). }
  injection O as -> -> -> -> ->.
  pose proof E as E'. apply configurationError_None in E' as (R & Am & C).
  unfold untilGnbAmc. rewrite world_bind, untilChannel_halt, R.
  rewrite amc_test, bool_decide_eq_true_2 by assumption. cbn [negb].
  set (w1 := world_of (untilChannel lib v w0)).
  assert (attribute w1 ConfigDefault "ns3::NrAmc::ErrorModelType"
          = Some (TypeIdValue (LookupByName (errorModelType v)))) as A1.
  { unfold w1, untilChannel.
    rewrite world_bind, (halt_total (enableLogging v)) by never_aborts.
    rewrite world_bind, (halt_total (topology lib v)) by never_aborts.
    now apply amcDefaults_errorModel. }
  rewrite world_bind.
  pose proof (configureChannel_halt v w1) as H.
  assert (String.eqb (channelModel v) "ThreeGpp" || String.eqb (channelModel v) "NYU"
          || String.eqb (channelModel v) "TwoRay" || String.eqb (channelModel v) "Friis"
          = true) as T.
  { rewrite !orb_true_iff, !String.eqb_eq. revert C.
    rewrite !elem_of_cons, elem_of_nil. tauto. }
  rewrite T in H. cbn in H. rewrite H.
  assert (preserves (fun w => attribute w ConfigDefault "ns3::NrAmc::ErrorModelType")
                    (configureChannel v)) as P by frame.
  specialize (P w1). cbn beta in P. rewrite A1 in P.
  set (wc := world_of (configureChannel v w1)) in *.
  unfold configureDevices. autounfold with primitives. unfold bind, modify, attribute in *.
  cbn. repeat split; now simplify_map_eq.
Qed.

Lemma one_error_model_witness :
  configurationError exampleLibrary initialLocals = None /\
  let w := world_of (experiment exampleLibrary initialLocals initialWorld) in
  typeIds w !! UlErrorModel = Some (LookupByName (errorModelType initialLocals)) /\
  typeIds w !! DlErrorModel = Some (LookupByName (errorModelType initialLocals)) /\
  attribute w ConfigDefault "ns3::NrAmc::ErrorModelType"
    = Some (TypeIdValue (LookupByName (errorModelType initialLocals))) /\
  attribute w Scheduler "FixedMcsDl" = Some (BooleanValue false) /\
  attribute w Scheduler "FixedMcsUl" = Some (BooleanValue false).
Proof.
  assert (configurationError exampleLibrary initialLocals = None) as H
    by (vm_compute; reflexivity).
  exact (conj H (one_error_model exampleLibrary initialLocals initialWorld H)).
Defined.

(** ** More on the command line *)

(** Parsing is sequential: a command line in two parts is the second
    part parsed from where the first part arrived, and a failure in the
    first part is final. *)
Lemma Parse_app (lib : Library) (cmd : CommandLine) (args args' : list Argument)
    (v : Locals) :
  Parse lib cmd (args ++ args') v =
    match Parse lib cmd args v with
    | inl v1 => Parse lib cmd args' v1
    | inr h => inr h
    end.
Proof.
  revert v. induction args as [|a args IH]; intros v; cbn [Parse app]; [reflexivity|].
  destruct (HandleArgument lib cmd a v) as [v1|h]; [apply IH|reflexivity].
Qed.










(** ** Which parameters the configuration depends on *)













(** ** Outcome and logging *)


Lemma experiment_emits_after_logging lib v w0 :
  exists J,
    journal (world_of (experiment lib v w0))
    = (journal (world_of (enableLogging v w0)) ++ J)%list.
Proof.
  set (P := fun _ : Call => True).
  destruct (emits_after P (setup lib v) (fun _ => runExperiment v) w0 ltac:(journal_only))
    as (J4 & H4 & _).
  destruct (emits_after P (untilGnbAmc lib v)
              (fun _ => configureGnbAmc v ;; installDevices lib ;; buildFabric ;;
                        createTraffic ;; enableTraces)%sim w0 ltac:(journal_only))
    as (J3 & H3 & _).
  destruct (emits_after P (untilChannel lib v)
              (fun _ => configureChannel v ;; configureDevices v)%sim w0
              ltac:(journal_only)) as (J2 & H2 & _).
  destruct (emits_after P (enableLogging v)
              (fun _ => topology lib v ;; amcDefaults lib v ;; createHelpers v)%sim w0
              ltac:(journal_only)) as (J1 & H1 & _).
  exists (J1 ++ J2 ++ J3 ++ J4)%list.
  change (experiment lib v w0) with (bind (setup lib v) (fun _ => runExperiment v) w0).
  rewrite H4.
  change (setup lib v w0) with
    (bind (untilGnbAmc lib v)
          (fun _ => configureGnbAmc v ;; installDevices lib ;; buildFabric ;;
                    createTraffic ;; enableTraces)%sim w0).
  rewrite H3.
  change (untilGnbAmc lib v w0) with
    (bind (untilChannel lib v) (fun _ => configureChannel v ;; configureDevices v)%sim w0).
  rewrite H2.
  change (untilChannel lib v w0) with
    (bind (enableLogging v)
          (fun _ => topology lib v ;; amcDefaults lib v ;; createHelpers v)%sim w0).
  rewrite H1. now rewrite <- !app_assoc.
Qed.

(** X13.  With logging on, enabling the log component is the first thing the
    experiment does; with logging off, nothing is ever written to the
    ns-3 log. *)
Theorem logging_flag (lib : Library) (v : Locals) (w0 : World) :
  exists J,
    journal (world_of (experiment lib v w0))
    = (journal w0 ++ (if logging v then [LogComponentEnable "GsocNrChannelModels"] else [])
       ++ J)%list /\
    (logging v = false -> Forall (fun c => logCall c = false) J).
Proof.
  destruct (logging v) eqn:L.
  - destruct (experiment_emits_after_logging lib v w0) as (J & HJ).
    exists J. split; [|discriminate].
    rewrite HJ. unfold enableLogging. rewrite L. cbn. now rewrite <- app_assoc.
  - assert (emits (fun c => logCall c = false) (experiment lib v)) as E.
    { destruct v as [seed run cm ccm ues gnbs freq log emt amc]. cbn in L. subst log.
      unfold experiment, setup, untilGnbAmc, untilChannel, topology, createScenario,
        overridePlacement, assignMobility, placeTerminal, moveTerminal, enableLogging,
        NS_LOG_INFO.
      cbn [logging]. journal_only. }
    destruct (E w0) as (J & HJ & Q). exists J. auto.
Qed.

(** ** Order of mobility and provisioning *)

Lemma provisioningCalls_quiet v gnbs ues stream usedGnb :
  Forall (fun c => mobilityCall c = false) (provisioningCalls v gnbs ues stream usedGnb).
Proof.
  unfold provisioningCalls. rewrite !Forall_app. repeat split.
  - repeat constructor.
  - apply Forall_forall. intros c Hc. apply list_elem_of_In, in_map_iff in Hc as (i & <- & _).
    reflexivity.
  - repeat constructor.
Qed.

(** X14.  Every write to a terminal's position or velocity comes before the
    first device is installed: the calls of a completed run split into
    the configuration calls, which hold the one position write and the
    two velocity assignments of each terminal and install nothing, and
    the provisioning calls, which start with the base-station devices and
    touch no terminal's mobility. *)
Theorem mobility_precedes_provisioning (lib : Library) (v : Locals) (w0 : World) (i : nat) :
  configurationError lib v = None ->
  (i < N.to_nat (numUes v))%nat ->
  exists w J1 J2,
    experiment lib v w0 = Ret tt w /\
    journal w = (journal w0 ++ J1 ++ InstallGnbDevice (N.to_nat (numGnbs v)) :: J2)%list /\
    Forall (fun c => configurationCall c = true) J1 /\
    positionMutations i J1 = [placement i] /\
    velocityAssignments i J1 = [mkVector 30 0 0; zigzag i] /\
    Forall (fun c => mobilityCall c = false) J2.
Proof.
  intros E Hi.
  destruct (completed_run_calls lib v w0 E) as (w & J & k1 & k2 & Run & HJ & Q & _).
  pose proof (provisioningCalls_quiet v (N.to_nat (numGnbs v)) (N.to_nat (numUes v))
                (randomStream w0) k1) as Qp.
  assert (forall X (h : Call -> list X),
            (forall c, mobilityCall c = false -> h c = []) ->
            flat_map h J =
              (h (CreateScenarioWithMobility (mkVector ueSpeed 0 0) 0)
               ++ flat_map (fun i => h (SetPosition i (placement i)))
                           (seq 0 (N.to_nat (numUes v)))
               ++ flat_map (fun i => h (SetVelocity i (zigzag i)))
                           (seq 0 (N.to_nat (numUes v))))%list) as Hist.
  { intros X h Hq.
    destruct (setup_history h Hq lib v w0) as (Js & HJs & Hh).
    destruct (emits_after (fun c => mobilityCall c = false) (setup lib v)
                (fun _ => runExperiment v) w0 ltac:(journal_only)) as (Jr & HJr & Qr).
    change (bind (setup lib v) (fun _ => runExperiment v) w0)
      with (experiment lib v w0) in HJr.
    rewrite Run in HJr. cbn [world_of] in HJr. rewrite HJ, HJs, <- app_assoc in HJr.
    apply app_inv_head in HJr.
    assert (flat_map h (J ++ provisioningCalls v (N.to_nat (numGnbs v))
                               (N.to_nat (numUes v)) (randomStream w0) k1)
            = flat_map h (Js ++ Jr)) as F by now rewrite HJr.
    rewrite !flat_map_app in F.
    rewrite (flat_map_quiet h Hq _ Qp), (flat_map_quiet h Hq _ Qr), !app_nil_r in F.
    now rewrite F. }
  unfold provisioningCalls in HJ, Qp. cbn [app] in HJ, Qp.
  apply Forall_cons in Qp as [_ Qp].
  eexists w, J, _. split; [exact Run|]. split; [exact HJ|]. split; [exact Q|].
  split; [|split; [|exact Qp]].
  - unfold positionMutations. rewrite (Hist _ (positionGiven i)) by now intros [].
    cbn [positionGiven]. rewrite (flat_map_only_at (fun k => placement k) i _ Hi).
    assert (forall n, flat_map (fun _ : nat => @nil Vector) (seq 0 n) = []) as Nil
      by (induction n; [reflexivity | now rewrite seq_S, flat_map_app, IHn]).
    now rewrite Nil.
  - unfold velocityAssignments. rewrite (Hist _ (velocityGiven i)) by now intros [].
    cbn [velocityGiven]. rewrite (flat_map_only_at (fun k => zigzag k) i _ Hi).
    assert (forall n, flat_map (fun _ : nat => @nil Vector) (seq 0 n) = []) as Nil
      by (induction n; [reflexivity | now rewrite seq_S, flat_map_app, IHn]).
    now rewrite Nil.
Qed.

Lemma mobility_precedes_provisioning_witness :
  (configurationError exampleLibrary initialLocals = None /\
   (1 < N.to_nat (numUes initialLocals))%nat) /\
  exists w J1 J2,
    experiment exampleLibrary initialLocals initialWorld = Ret tt w /\
    journal w = (journal initialWorld ++ J1
                 ++ InstallGnbDevice (N.to_nat (numGnbs initialLocals)) :: J2)%list /\
    Forall (fun c => configurationCall c = true) J1 /\
    positionMutations 1 J1 = [placement 1] /\
    velocityAssignments 1 J1 = [mkVector 30 0 0; zigzag 1] /\
    Forall (fun c => mobilityCall c = false) J2.
Proof.
  assert (configurationError exampleLibrary initialLocals = None) as H
    by (vm_compute; reflexivity).
  assert (1 < N.to_nat (numUes initialLocals))%nat as Hi by (vm_compute; lia).
  exact (conj (conj H Hi)
              (mobility_precedes_provisioning exampleLibrary initialLocals initialWorld 1
                 H Hi)).
Defined.

(** ** The condition model under Friis *)

(** X15.  With the Friis model the channel condition model is never looked at:
    whatever its name, the run is the same, call for call. *)
Theorem friis_ignores_condition (lib : Library) (v : Locals) (condition : string)
    (w0 : World) :
  channelModel v = "Friis" ->
  experiment lib (set_channelConditionModel condition v) w0 = experiment lib v w0.
Proof.
  destruct v as [seed run cm ccm ues gnbs freq log emt amc].
  unfold set_channelConditionModel.
  cbn [rngSeed rngRun channelModel channelConditionModel numUes numGnbs
       centralFrequency logging errorModelType amcSelectionModel].
  intros ->.
  unfold experiment, setup, untilGnbAmc, untilChannel, topology, createScenario,
    overridePlacement, assignMobility, placeTerminal, moveTerminal, configureChannel,
    amcDefaults, createHelpers, configureDevices, configureGnbAmc, runExperiment,
    enableLogging, NS_LOG_INFO.
  cbn [rngSeed rngRun channelModel channelConditionModel numUes numGnbs
       centralFrequency logging errorModelType amcSelectionModel
       String.eqb Ascii.eqb Bool.eqb orb].
  reflexivity.
Qed.

Lemma friis_ignores_condition_witness :
  channelModel (set_channelModel "Friis" initialLocals) = "Friis" /\
  experiment exampleLibrary
    (set_channelConditionModel "NLOS" (set_channelModel "Friis" initialLocals)) initialWorld
  = experiment exampleLibrary (set_channelModel "Friis" initialLocals) initialWorld.
Proof.
  exact (conj eq_refl
              (friis_ignores_condition exampleLibrary
                 (set_channelModel "Friis" initialLocals) "NLOS" initialWorld eq_refl)).
Defined.

(** ** The registered options *)

(** X16.  Each of the eight options registered before [Parse] stores the parsed
    value into its own variable and leaves the others alone; a value that
    does not parse ends the program with [exit (1)]. *)
Theorem registered_options_store (lib : Library) (value : string) (v : Locals) :
  Parse lib (optionsAtParse lib) [("seed", value)] v
    = match parseUint32 lib value with
      | Some n => inl (set_rngSeed n v) | None => inr (Exit 1) end /\
  Parse lib (optionsAtParse lib) [("run", value)] v
    = match parseUint32 lib value with
      | Some n => inl (set_rngRun n v) | None => inr (Exit 1) end /\
  Parse lib (optionsAtParse lib) [("channelModel", value)] v
    = match parseString lib value with
      | Some s => inl (set_channelModel s v) | None => inr (Exit 1) end /\
  Parse lib (optionsAtParse lib) [("channelConditionModel", value)] v
    = match parseString lib value with
      | Some s => inl (set_channelConditionModel s v) | None => inr (Exit 1) end /\
  Parse lib (optionsAtParse lib) [("ueNum", value)] v
    = match parseUint32 lib value with
      | Some n => inl (set_numUes n v) | None => inr (Exit 1) end /\
  Parse lib (optionsAtParse lib) [("gNbNum", value)] v
    = match parseUint32 lib value with
      | Some n => inl (set_numGnbs n v) | None => inr (Exit 1) end /\
  Parse lib (optionsAtParse lib) [("frequency", value)] v
    = match parseDouble lib value with
      | Some d => inl (set_centralFrequency d v) | None => inr (Exit 1) end /\
  Parse lib (optionsAtParse lib) [("logging", value)] v
    = match parseBool lib (logging v) value with
      | Some b => inl (set_logging b v) | None => inr (Exit 1) end.
Proof. exact (registered_options_take_effect lib value v). Qed.
